(** * kt: the HTTP protocol adapter of a KyotoTycoon client

    A shallow embedding of [kt/http.py] (class [HttpProtocol]) and the
    properties of its wire framing and of its request/response handling.

    Python values are modelled as follows.
    - [bytes] is [list byte]; [str] is [string].
    - A [dict] is an insertion-ordered association list with unique keys
      (module [Dict]); iteration follows insertion order, as in Python 3.7+.
    - An exception is a constructor of [exn]; a computation that may raise
      returns a [result].
    - The transport ([requests.Session.post]) is a deterministic server that
      sees the history of earlier calls; every call is logged.  The protocol
      object is taken as opened ([_session] set), the transport itself does
      not fail, and every response has a [content-type] header.
    - What http.py imports from the rest of the package ([encode] and
      [decode] of [kt._binary], the client object with its value codec) is
      a parameter of the development. *)

From Stdlib Require Import List Strings.String Strings.Ascii Strings.Byte NArith ZArith Lia Bool.
From Stdlib Require Import DecimalString DecimalPos DecimalZ.
Import ListNotations.

Set Implicit Arguments.
Set Default Proof Using "Type*".

Definition bytes := list byte.

(** ** Exceptions and results *)

(** A Python object that [kt._binary.encode] accepts: text or bytes. *)
Inductive pyobj :=
| PyStr (s : string)
| PyBytes (b : bytes).

Inductive exn :=
| ProtocolError (msg : string)      (* kt.exceptions.ProtocolError *)
| ValueError (msg : string)
| binascii_Error                    (* raised by b64decode; a ValueError subclass *)
| TypeError (msg : string)
| KeyError (key : pyobj)
| UnicodeDecodeError
| CodecError (msg : string).        (* whatever a value serializer raises *)

Inductive result (A : Type) :=
| Ok (a : A)
| Raise (e : exn).
Arguments Ok {A} a.
Arguments Raise {A} e.

Definition rbind {A B} (m : result A) (f : A -> result B) : result B :=
  match m with
  | Ok a => f a
  | Raise e => Raise e
  end.

Definition rmap {A B} (f : A -> B) (m : result A) : result B :=
  rbind m (fun a => Ok (f a)).

Declare Scope result_scope.
Delimit Scope result_scope with result.
Notation "x <- m ;; k" := (rbind m (fun x => k))
  (at level 61, m at next level, right associativity) : result_scope.
Notation "' p <- m ;; k" := (rbind m (fun p => k))
  (at level 61, p pattern, m at next level, right associativity) : result_scope.

(** ** Ranges of small numbers, for exhaustive checks *)

Definition below (k : nat) : list N := map N.of_nat (seq 0 k).

(** ** Base64, as [base64.b64encode] and [base64.b64decode] compute it *)

Module Base64.
Local Open Scope N_scope.

Definition alphabet : bytes :=
  list_byte_of_string
    "ABCDEFGHIJKLMNOPQRSTUVWXYZabcdefghijklmnopqrstuvwxyz0123456789+/".

Definition PAD : byte := "="%byte.

(** [table_b2a_base64]: sextet to character. *)
Definition table_b2a (n : N) : byte := nth (N.to_nat n) alphabet x00.

Fixpoint index_of (c : byte) (l : bytes) (i : N) : option N :=
  match l with
  | [] => None
  | x :: l' => if Byte.eqb c x then Some i else index_of c l' (N.succ i)
  end.

(** [table_a2b_base64]: character to sextet; [None] stands for the
    table's "not in the alphabet" entries. *)
Definition table_a2b (c : byte) : option N := index_of c alphabet 0.

(** Storing into an [unsigned char]. *)
Definition u8 (n : N) : byte :=
  match Byte.of_N (n mod 256) with
  | Some b => b
  | None => x00
  end.

Definition sextet1 (a : byte) : N := N.shiftr (to_N a) 2.
Definition sextet2 (a : byte) (hi : N) : N :=
  N.lor (N.shiftl (N.land (to_N a) 3) 4) hi.
Definition sextet3 (b : byte) (hi : N) : N :=
  N.lor (N.shiftl (N.land (to_N b) 15) 2) hi.
Definition sextet4 (c : byte) : N := N.land (to_N c) 63.

(** [b64encode]: three bytes become four characters; a tail of one or
    two bytes is padded with [=]. *)
Fixpoint b64encode (s : bytes) : bytes :=
  match s with
  | [] => []
  | [a] =>
      [table_b2a (sextet1 a); table_b2a (sextet2 a 0); PAD; PAD]
  | [a; b] =>
      [table_b2a (sextet1 a); table_b2a (sextet2 a (N.shiftr (to_N b) 4));
       table_b2a (sextet3 b 0); PAD]
  | a :: b :: c :: rest =>
      table_b2a (sextet1 a)
      :: table_b2a (sextet2 a (N.shiftr (to_N b) 4))
      :: table_b2a (sextet3 b (N.shiftr (to_N c) 6))
      :: table_b2a (sextet4 c)
      :: b64encode rest
  end.

Definition emit (b : byte) (m : result bytes) : result bytes :=
  rmap (cons b) m.

(** The loop of [binascii.a2b_base64] in its default, non-strict mode:
    characters outside the alphabet are skipped, a complete pad sequence
    ends the input, and leftover sextets are an error ("Incorrect padding"
    or "Invalid base64-encoded string", both [binascii.Error]). *)
Fixpoint a2b_base64 (data : bytes) (quad_pos : nat) (leftchar : N)
         (pads : nat) : result bytes :=
  match data with
  | [] =>
      match quad_pos with
      | O => Ok []
      | _ => Raise binascii_Error
      end
  | ch :: rest =>
      if Byte.eqb ch PAD then
        if Nat.leb 2 quad_pos then
          if Nat.leb 4 (quad_pos + S pads) then Ok []
          else a2b_base64 rest quad_pos leftchar (S pads)
        else a2b_base64 rest quad_pos leftchar pads
      else
        match table_a2b ch with
        | None => a2b_base64 rest quad_pos leftchar pads
        | Some v =>
            match quad_pos with
            | O => a2b_base64 rest 1 v 0
            | 1%nat =>
                emit (u8 (N.lor (N.shiftl leftchar 2) (N.shiftr v 4)))
                     (a2b_base64 rest 2 (N.land v 15) 0)
            | 2%nat =>
                emit (u8 (N.lor (N.shiftl leftchar 4) (N.shiftr v 2)))
                     (a2b_base64 rest 3 (N.land v 3) 0)
            | _ =>
                emit (u8 (N.lor (N.shiftl leftchar 6) v))
                     (a2b_base64 rest 0 0 0)
            end
        end
  end.

Definition b64decode (s : bytes) : result bytes := a2b_base64 s 0 0 0.

End Base64.


(** ** Byte strings: [split], [split(sep, 1)], [join] *)

Definition TAB : byte := x09.
Definition NL : byte := x0a.
Definition UNDERSCORE : byte := "_"%byte.

(** [s.split(sep)] for a one-byte separator: never the empty list. *)
Fixpoint bytes_split (sep : byte) (s : bytes) : list bytes :=
  match s with
  | [] => [[]]
  | c :: s' =>
      if Byte.eqb c sep then [] :: bytes_split sep s'
      else match bytes_split sep s' with
           | w :: ws => (c :: w) :: ws
           | [] => [[c]]
           end
  end.

(** [a, b = s.split(sep, 1)]: the two sides of the first separator, or
    [None] where the unpacking raises [ValueError] (no separator). *)
Fixpoint bytes_split1 (sep : byte) (s : bytes) : option (bytes * bytes) :=
  match s with
  | [] => None
  | c :: s' =>
      if Byte.eqb c sep then Some ([], s')
      else match bytes_split1 sep s' with
           | Some (a, b) => Some (c :: a, b)
           | None => None
           end
  end.

(** [sep.join(l)]. *)
Fixpoint bytes_join (sep : byte) (l : list bytes) : bytes :=
  match l with
  | [] => []
  | x :: xs =>
      match xs with
      | [] => x
      | _ :: _ => x ++ sep :: bytes_join sep xs
      end
  end.

(** ** Text: [endswith], [str(int)] *)

Definition endswith (s suffix : string) : bool :=
  let n := String.length s in
  let m := String.length suffix in
  Nat.leb m n && String.eqb (substring (n - m) m s) suffix.

(** [str(n)] and ['%s' % n] for an [int]. *)
Definition str_of_int (n : Z) : string := NilZero.string_of_int (Z.to_int n).

(** ** URL unescaping, [urllib.parse.unquote_to_bytes] *)

Module Url.

Definition hexval (c : byte) : option N :=
  let n := to_N c in
  if (48 <=? n)%N && (n <=? 57)%N then Some (n - 48)%N
  else if (65 <=? n)%N && (n <=? 70)%N then Some (n - 55)%N
  else if (97 <=? n)%N && (n <=? 102)%N then Some (n - 87)%N
  else None.

Definition PERCENT : byte := "%"%byte.

Fixpoint unquote_to_bytes (s : bytes) : bytes :=
  match s with
  | [] => []
  | c :: s' =>
      if Byte.eqb c PERCENT then
        match s' with
        | h :: l :: rest =>
            match hexval h, hexval l with
            | Some x, Some y => Base64.u8 (16 * x + y) :: unquote_to_bytes rest
            | _, _ => c :: unquote_to_bytes s'
            end
        | _ => c :: unquote_to_bytes s'
        end
      else c :: unquote_to_bytes s'
  end.

End Url.

(** ** Dictionaries *)

Class EqDec (K : Type) := eq_dec : forall x y : K, {x = y} + {x <> y}.

#[export] Instance string_EqDec : EqDec string := string_dec.

#[export] Instance bytes_EqDec : EqDec bytes := list_eq_dec byte_eq_dec.

#[export] Instance pyobj_EqDec : EqDec pyobj.
Proof.
  intros x y. unfold EqDec in *.
  decide equality; [apply string_dec | apply (list_eq_dec byte_eq_dec)].
Defined.

Definition dict (K V : Type) := list (K * V).

Module Dict.
Section Ops.
Context {K V : Type} `{EqDec K}.

(** [d.get(k)] *)
Fixpoint get (k : K) (d : dict K V) : option V :=
  match d with
  | [] => None
  | (k', v') :: d' => if eq_dec k k' then Some v' else get k d'
  end.

(** [d[k] = v]: an existing key keeps its place, a new one goes last. *)
Fixpoint setitem (k : K) (v : V) (d : dict K V) : dict K V :=
  match d with
  | [] => [(k, v)]
  | (k', v') :: d' =>
      if eq_dec k k' then (k', v) :: d' else (k', v') :: setitem k v d'
  end.

(** [del d[k]], for a key that may be missing. *)
Fixpoint delitem (k : K) (d : dict K V) : dict K V :=
  match d with
  | [] => []
  | (k', v') :: d' =>
      if eq_dec k k' then d' else (k', v') :: delitem k d'
  end.

(** [d.pop(k, default)]: the value and the dictionary left behind. *)
Definition pop_default (k : K) (default : V) (d : dict K V) : V * dict K V :=
  match get k d with
  | Some v => (v, delitem k d)
  | None => (default, d)
  end.

(** [d.update(other)] *)
Definition update (d other : dict K V) : dict K V :=
  fold_left (fun acc kv => setitem (fst kv) (snd kv) acc) other d.

Definition keys (d : dict K V) : list K := map fst d.

End Ops.
End Dict.

(** [d[k]], raising [KeyError] *)
Definition getitem {V} (k : pyobj) (d : dict pyobj V) : result V :=
  match Dict.get k d with
  | Some v => Ok v
  | None => Raise (KeyError k)
  end.

(** [d.pop(k)], raising [KeyError] *)
Definition pop {V} (k : pyobj) (d : dict pyobj V) : result (V * dict pyobj V) :=
  match Dict.get k d with
  | Some v => Ok (v, Dict.delitem k d)
  | None => Raise (KeyError k)
  end.

(** [key[1:]] *)
Definition slice1 (key : pyobj) : pyobj :=
  match key with
  | PyStr s => PyStr (match s with String _ s' => s' | EmptyString => EmptyString end)
  | PyBytes b => PyBytes (tl b)
  end.

(** ** The transport and the client object *)

Record response := {
  status_code : Z;
  content : bytes;
  content_type : string          (* [r.headers['content-type']] *)
}.

(** One [session.post(url, data=body)]. *)
Definition call := (string * bytes)%type.

(** A computation that may post to the server: it reads and extends the
    log of calls made so far, and returns or raises. *)
Definition io (A : Type) := list call -> result A * list call.

Definition ret {A} (a : A) : io A := fun log => (Ok a, log).
Definition raise {A} (e : exn) : io A := fun log => (Raise e, log).
Definition lift {A} (r : result A) : io A := fun log => (r, log).
Definition bind {A B} (m : io A) (f : A -> io B) : io B :=
  fun log =>
    match m log with
    | (Ok a, log') => f a log'
    | (Raise e, log') => (Raise e, log')
    end.

Declare Scope io_scope.
Delimit Scope io_scope with io.
Notation "x <- m ;; k" := (bind m (fun x => k))
  (at level 61, m at next level, right associativity) : io_scope.
Notation "' p <- m ;; k" := (bind m (fun p => k))
  (at level 61, p pattern, m at next level, right associativity) : io_scope.

(** The part of the client object ([self.client]) that http.py reads. *)
Record Client (V : Type) := {
  _host : string;
  _port : Z;
  _decode_keys : bool;
  _encode_value : V -> bytes;
  _decode_value : bytes -> result V
}.

(** The [db] argument: [False], [None], an index or a name. *)
Inductive db_arg :=
| DbFalse
| DbNone
| DbInt (n : Z)
| DbStr (s : string).

(** ['%s' % db] *)
Definition format_db (db : db_arg) : string :=
  match db with
  | DbFalse => "False"
  | DbNone => "None"
  | DbInt n => str_of_int n
  | DbStr s => s
  end.

(** The [data] argument of [request], by its run-time type. *)
Inductive req_data :=
| DataDict (d : dict pyobj pyobj)
| DataList (l : list pyobj)
| DataRaw (b : bytes).

Definition bytes_of (s : string) : bytes := list_byte_of_string s.

(** ** A concrete client and server, for worked examples *)

(** A stand-in for [kt._binary.encode] on ASCII text and bytes. *)
Definition encode_ascii (o : pyobj) : bytes :=
  match o with
  | PyStr s => bytes_of s
  | PyBytes b => b
  end.

Definition decode_ascii (b : bytes) : result string :=
  Ok (string_of_list_byte b).

(** [int(b)] for plain decimal text. *)
Definition int_decimal (b : bytes) : result Z :=
  match NilZero.int_of_string (string_of_list_byte b) with
  | Some d => Ok (Z.of_int d)
  | None => Raise (ValueError "invalid literal for int() with base 10")
  end.

(** A client with the pass-through value codec and byte keys. *)
Definition binary_client : Client bytes :=
  {| _host := "127.0.0.1";
     _port := 1978;
     _decode_keys := false;
     _encode_value := fun v => v;
     _decode_value := fun b => Ok b |}.

(** A server that gives the same answer to every call. *)
Definition answering (r : response) : list call -> call -> response :=
  fun _ _ => r.

Definition tsv_raw : string := "text/tab-separated-values".
Definition tsv_base64 : string := "text/tab-separated-values; colenc=B".
Definition tsv_url : string := "text/tab-separated-values; colenc=U".

(** Sample responses and data. *)
Definition r500 : response :=
  {| status_code := 500; content := []; content_type := tsv_raw |}.

Definition r450 : response :=
  {| status_code := 450;
     content := bytes_of "ERROR" ++ TAB :: bytes_of "DB: 7: no record";
     content_type := tsv_raw |}.

(** Status 450 with a base64 content type and fields that are not
    base64. *)
Definition r450_undecodable : response :=
  {| status_code := 450;
     content := bytes_of "a" ++ TAB :: bytes_of "b";
     content_type := tsv_base64 |}.

Definition r200_value : response :=
  {| status_code := 200;
     content := bytes_of "value" ++ TAB :: bytes_of "v1";
     content_type := tsv_raw |}.

Definition r200_num1 : response :=
  {| status_code := 200;
     content := bytes_of "num" ++ TAB :: bytes_of "1";
     content_type := tsv_raw |}.

Definition r200_bulk : response :=
  {| status_code := 200;
     content := bytes_of "num" ++ TAB :: bytes_of "2" ++ NL
                :: bytes_of "_k1" ++ TAB :: bytes_of "v1" ++ NL
                :: bytes_of "_k2" ++ TAB :: bytes_of "v2";
     content_type := tsv_raw |}.


Definition sample_mapping : dict bytes bytes :=
  [(bytes_of "k1", bytes_of "v1"); (bytes_of "k2", [x00; x09; xff; x0a]); ([], [])].

(** A client whose value codec refuses the empty byte string. *)
Definition strict_client : Client bytes :=
  {| _host := "127.0.0.1";
     _port := 1978;
     _decode_keys := false;
     _encode_value := fun v => v;
     _decode_value := fun b =>
       match b with
       | [] => Raise (CodecError "empty value")
       | _ :: _ => Ok b
       end |}.

(** A client that turns response keys into text. *)
Definition text_client : Client bytes :=
  {| _host := "127.0.0.1";
     _port := 1978;
     _decode_keys := true;
     _encode_value := fun v => v;
     _decode_value := fun b => Ok b |}.

Definition r200_bulk_empty_value : response :=
  {| status_code := 200;
     content := bytes_of "num" ++ TAB :: bytes_of "2" ++ NL
                :: bytes_of "_k1" ++ TAB :: bytes_of "v1" ++ NL
                :: bytes_of "_k2" ++ [TAB];
     content_type := tsv_raw |}.

Definition r200_empty : response :=
  {| status_code := 200; content := []; content_type := tsv_raw |}.

(** The session object, as far as http.py touches it: the one header that
    [open] sets. *)
Record Session := { content_type_header : string }.

(** ** [HttpProtocol] *)

Section HttpProtocol.

Variable V : Type.                          (* the application's values *)
Variable encode : pyobj -> bytes.           (* [kt._binary.encode] *)
Variable decode : bytes -> result string.   (* [kt._binary.decode] *)
Variable py_int : bytes -> result Z.        (* the builtin [int] on bytes *)
Variable client : Client V.                 (* [self.client] *)
Variable server : list call -> call -> response.

Local Open Scope string_scope.
Local Open Scope list_scope.

Definition decoder := bytes -> result bytes.

(** [unquote_to_bytes(string)] takes one positional argument and no
    keyword. *)
Definition unquote_to_bytes_kw (kwargs : list (string * string)) : decoder :=
  fun s =>
    match kwargs with
    | [] => Ok (Url.unquote_to_bytes s)
    | (name, _) :: _ =>
        Raise (TypeError
                 ("unquote_to_bytes() got an unexpected keyword argument '"
                    ++ name ++ "'")%string)
    end.

(** [unquote_b = partial(unquote_to_bytes, safe='')] *)
Definition unquote_b : decoder := unquote_to_bytes_kw [("safe", "")].

Definition decode_from_content_type (content_type : string) : option decoder :=
  if endswith content_type "colenc=B" then Some Base64.b64decode
  else if endswith content_type "colenc=U" then Some unquote_b
  else None.

Definition _content_type : string := "text/tab-separated-values; colenc=B".

Definition _prefix : string :=
  ("http://" ++ _host client ++ ":" ++ str_of_int (_port client) ++ "/rpc")%string.

Definition _encode_keys_values (data : dict pyobj pyobj) : bytes :=
  let accum :=
    fold_left
      (fun accum kv =>
         let bkey := encode (fst kv) in
         let bvalue := encode (snd kv) in
         accum ++ [Base64.b64encode bkey ++ TAB :: Base64.b64encode bvalue])
      data [] in
  bytes_join NL accum.

Definition _encode_keys (keys : list pyobj) : bytes :=
  let accum :=
    fold_left
      (fun accum key =>
         accum ++ [Base64.b64encode (UNDERSCORE :: encode key) ++ [TAB]])
      keys [] in
  bytes_join NL accum.

(** The body of the [for line in ...] loop of [_decode_response]. *)
Fixpoint decode_lines (dec : option decoder) (lines : list bytes)
         (accum : dict pyobj bytes) : result (dict pyobj bytes) :=
  match lines with
  | [] => Ok accum
  | line :: rest =>
      match bytes_split1 TAB line with
      | None => decode_lines dec rest accum
      | Some (key, value) =>
          (kv <- match dec with
                 | Some d => (k <- d key ;; v <- d value ;; Ok (k, v))
                 | None => Ok (key, value)
                 end ;;
           key' <- (if _decode_keys client
                    then rmap PyStr (decode (fst kv))
                    else Ok (PyBytes (fst kv))) ;;
           decode_lines dec rest (Dict.setitem key' (snd kv) accum))%result
      end
  end.

Definition _decode_response (tsv : bytes) (content_type : string)
  : result (dict pyobj bytes) :=
  let dec := decode_from_content_type content_type in
  decode_lines dec (bytes_split NL tsv) [].

Definition path (url : string) : string := (_prefix ++ url)%string.

(** [if db is not False: path += '?DB=%s' % db] *)
Definition db_path (path_ : string) (db : db_arg) : string :=
  match db with
  | DbFalse => path_
  | _ => (path_ ++ "?DB=" ++ format_db db)%string
  end.

Definition _post (path_ : string) (body : bytes) (db : db_arg) : io response :=
  let path_ := db_path path_ db in
  fun log =>
    let c := (path path_, body) in
    (Ok (server log c), log ++ [c]).

(** The [isinstance] chain at the head of [request]. *)
Definition request_body (data : req_data) : bytes :=
  match data with
  | DataDict d => _encode_keys_values d
  | DataList l => _encode_keys l
  | DataRaw b => b
  end.

(** The test that guards the [raise] in [request]. *)
Definition rejected (status_code : Z) (allowed_status : option (list Z)) : bool :=
  negb (status_code =? 200)%Z
  && match allowed_status with
     | None => true
     | Some allowed => negb (existsb (Z.eqb status_code) allowed)
     end.

Definition request (path_ : string) (data : req_data) (db : db_arg)
           (allowed_status : option (list Z))
  : io (dict pyobj bytes * Z) :=
  let body := request_body data in
  (r <- _post path_ body db ;;
   if rejected (status_code r) allowed_status
   then raise (ProtocolError
                 ("protocol error [" ++ str_of_int (status_code r) ++ "]")%string)
   else
     resp <- lift (_decode_response (content r) (content_type r)) ;;
     ret (resp, status_code r))%io.

(** ['name' if self.client._decode_keys else b'name'] *)
Definition field (name : string) : pyobj :=
  if _decode_keys client then PyStr name else PyBytes (bytes_of name).

Definition status (db : db_arg) : io (dict pyobj bytes) :=
  (rs <- request "/status" (DataDict []) db None ;;
   ret (fst rs))%io.

Definition report : io (dict pyobj bytes) :=
  (rs <- request "/report" (DataDict []) DbNone None ;;
   ret (fst rs))%io.

Definition clear (db : db_arg) : io bool :=
  (rs <- request "/clear" (DataDict []) db None ;;
   ret (snd rs =? 200)%Z)%io.

(** The loop [for key, value in resp.items(): accum[key[1:]] = ...] shared
    by [play_script] and [get_bulk]. *)
Fixpoint strip_and_decode (items : list (pyobj * bytes)) (accum : dict pyobj V)
  : result (dict pyobj V) :=
  match items with
  | [] => Ok accum
  | (key, value) :: rest =>
      (v <- _decode_value client value ;;
       strip_and_decode rest (Dict.setitem (slice1 key) v accum))%result
  end.

(** The loop [for key, value in data.items(): accum['_%s' % key] = ...]
    shared by [play_script] and [set_bulk]; keys are text. *)
Definition prefix_and_encode (data : dict string V) (accum : dict pyobj pyobj)
  : dict pyobj pyobj :=
  fold_left
    (fun accum kv =>
       Dict.setitem (PyStr ("_" ++ fst kv)%string)
                    (PyBytes (_encode_value client (snd kv))) accum)
    data accum.

Definition play_script (name : string) (__data : option (dict string V))
           (params : dict string V) : io (option (dict pyobj V)) :=
  let params :=
    match __data with
    | Some d => Dict.update params d
    | None => params
    end in
  let accum := prefix_and_encode params [] in
  (rs <- request "/play_script" (DataDict accum) DbFalse (Some [450%Z]) ;;
   if (snd rs =? 450)%Z then ret None
   else
     accum <- lift (strip_and_decode (fst rs) []) ;;
     ret (Some accum))%io.

Definition get (key : pyobj) (db : db_arg) : io (option V) :=
  (rs <- request "/get" (DataDict [(PyStr "key", key)]) db (Some [450%Z]) ;;
   if (snd rs =? 450)%Z then ret None
   else
     value <- lift (getitem (field "value") (fst rs)) ;;
     v <- lift (_decode_value client value) ;;
     ret (Some v))%io.

Definition _simple_write (cmd : string) (key : pyobj) (value : V)
           (db : db_arg) (expire_time : option Z) : io bool :=
  let data :=
    [(PyStr "key", key); (PyStr "value", PyBytes (_encode_value client value))] in
  let data :=
    match expire_time with
    | Some xt => Dict.setitem (PyStr "xt") (PyStr (str_of_int xt)) data
    | None => data
    end in
  (rs <- request ("/" ++ cmd)%string (DataDict data) db (Some [450%Z]) ;;
   ret (negb (snd rs =? 450)%Z))%io.

Definition set := _simple_write "set".
Definition add := _simple_write "add".
Definition replace := _simple_write "replace".
Definition append := _simple_write "append".

Definition remove (key : pyobj) (db : db_arg) : io bool :=
  (rs <- request "/remove" (DataDict [(PyStr "key", key)]) db (Some [450%Z]) ;;
   ret (negb (snd rs =? 450)%Z))%io.

Definition check (key : pyobj) (db : db_arg) : io bool :=
  (rs <- request "/check" (DataDict [(PyStr "key", key)]) db (Some [450%Z]) ;;
   ret (negb (snd rs =? 450)%Z))%io.

(** The request mapping that [set_bulk] builds. *)
Definition set_bulk_data (data : dict string V) (expire_time : option Z)
  : dict pyobj pyobj :=
  let accum :=
    match expire_time with
    | Some xt => Dict.setitem (PyStr "xt") (PyStr (str_of_int xt)) []
    | None => []
    end in
  prefix_and_encode data accum.

Definition set_bulk (data : dict string V) (db : db_arg)
           (expire_time : option Z) : io (dict pyobj bytes) :=
  let accum := set_bulk_data data expire_time in
  (rs <- request "/set_bulk" (DataDict accum) db None ;;
   ret (fst rs))%io.

Definition get_bulk (keys : list pyobj) (db : db_arg) : io (dict pyobj V) :=
  (rs <- request "/get_bulk" (DataList keys) db None ;;
   let (n, resp) := Dict.pop_default (field "num") (bytes_of "0") (fst rs) in
   if eq_dec n (bytes_of "0") then ret []
   else lift (strip_and_decode resp []))%io.

Definition remove_bulk (keys : list pyobj) (db : db_arg) : io Z :=
  (rs <- request "/remove_bulk" (DataList keys) db None ;;
   nr <- lift (pop (field "num") (fst rs)) ;;
   lift (py_int (fst nr)))%io.

Definition seize (key : pyobj) (db : db_arg) : io (option V) :=
  (rs <- request "/seize" (DataDict [(PyStr "key", key)]) db (Some [450%Z]) ;;
   if (snd rs =? 450)%Z then ret None
   else
     value <- lift (getitem (field "value") (fst rs)) ;;
     v <- lift (_decode_value client value) ;;
     ret (Some v))%io.

(** The request mapping that [cas] builds once its arguments are accepted. *)
Definition cas_data (key : pyobj) (old_val new_val : option V)
           (expire_time : option Z) : dict pyobj pyobj :=
  let data := [(PyStr "key", key)] in
  let data :=
    match old_val with
    | Some o => Dict.setitem (PyStr "oval") (PyBytes (_encode_value client o)) data
    | None => data
    end in
  let data :=
    match new_val with
    | Some n => Dict.setitem (PyStr "nval") (PyBytes (_encode_value client n)) data
    | None => data
    end in
  match expire_time with
  | Some xt => Dict.setitem (PyStr "xt") (PyStr (str_of_int xt)) data
  | None => data
  end.

Definition cas (key : pyobj) (old_val new_val : option V) (db : db_arg)
           (expire_time : option Z) : io bool :=
  match old_val, new_val with
  | None, None =>
      raise (ValueError "old value and/or new value must be specified.")
  | _, _ =>
      let data := cas_data key old_val new_val expire_time in
      (rs <- request "/cas" (DataDict data) db (Some [450%Z]) ;;
       ret (negb (snd rs =? 450)%Z))%io
  end.

(** A mapping of byte keys to byte values, as the argument of the frame
    encoder and as the result of the frame decoder. *)
Definition as_data (d : dict bytes bytes) : dict pyobj pyobj :=
  map (fun kv => (PyBytes (fst kv), PyBytes (snd kv))) d.

Definition as_frame (d : dict bytes bytes) : dict pyobj bytes :=
  map (fun kv => (PyBytes (fst kv), snd kv)) d.

(** One record of a key-value frame. *)
Definition record (kv : pyobj * pyobj) : bytes :=
  Base64.b64encode (encode (fst kv)) ++ TAB :: Base64.b64encode (encode (snd kv)).

(** ** The operations as a whole *)

Inductive operation :=
| OpStatus (db : db_arg)
| OpReport
| OpClear (db : db_arg)
| OpPlayScript (name : string) (__data : option (dict string V))
               (params : dict string V)
| OpGet (key : pyobj) (db : db_arg)
| OpSet (key : pyobj) (value : V) (db : db_arg) (expire_time : option Z)
| OpAdd (key : pyobj) (value : V) (db : db_arg) (expire_time : option Z)
| OpReplace (key : pyobj) (value : V) (db : db_arg) (expire_time : option Z)
| OpAppend (key : pyobj) (value : V) (db : db_arg) (expire_time : option Z)
| OpRemove (key : pyobj) (db : db_arg)
| OpCheck (key : pyobj) (db : db_arg)
| OpSetBulk (data : dict string V) (db : db_arg) (expire_time : option Z)
| OpGetBulk (keys : list pyobj) (db : db_arg)
| OpRemoveBulk (keys : list pyobj) (db : db_arg)
| OpSeize (key : pyobj) (db : db_arg)
| OpCas (key : pyobj) (old_val new_val : option V) (db : db_arg)
        (expire_time : option Z).

(** What a call raises on a given log, if anything. *)
Definition raised {A} (m : io A) (log : list call) : option exn :=
  match fst (m log) with
  | Ok _ => None
  | Raise e => Some e
  end.

Definition run_raised (op : operation) : list call -> option exn :=
  match op with
  | OpStatus db => raised (status db)
  | OpReport => raised report
  | OpClear db => raised (clear db)
  | OpPlayScript name __data params => raised (play_script name __data params)
  | OpGet key db => raised (get key db)
  | OpSet key value db xt => raised (set key value db xt)
  | OpAdd key value db xt => raised (add key value db xt)
  | OpReplace key value db xt => raised (replace key value db xt)
  | OpAppend key value db xt => raised (append key value db xt)
  | OpRemove key db => raised (remove key db)
  | OpCheck key db => raised (check key db)
  | OpSetBulk data db xt => raised (set_bulk data db xt)
  | OpGetBulk keys db => raised (get_bulk keys db)
  | OpRemoveBulk keys db => raised (remove_bulk keys db)
  | OpSeize key db => raised (seize key db)
  | OpCas key old_val new_val db xt => raised (cas key old_val new_val db xt)
  end.

(** The [allowed_status] argument that each operation passes to
    [request]. *)
Definition acceptable (op : operation) : list Z :=
  match op with
  | OpStatus _ | OpReport | OpClear _
  | OpSetBulk _ _ _ | OpGetBulk _ _ | OpRemoveBulk _ _ => []
  | _ => [450%Z]
  end.

(** [cas] without an old and without a new value never reaches [request]. *)
Definition is_misuse (op : operation) : bool :=
  match op with
  | OpCas _ None None _ _ => true
  | _ => false
  end.

(** The exception that [request] raises for a status it rejects. *)
Definition protocol_error (s : Z) : exn :=
  ProtocolError ("protocol error [" ++ str_of_int s ++ "]")%string.

(** The key that an optional argument adds to a request mapping. *)
Definition present {A} (o : option A) (name : string) : list pyobj :=
  match o with
  | Some _ => [PyStr name]
  | None => []
  end.

(** The bulk-read frame in the words of the wire format:
    [record := base64(UNDERSCORE + key) TAB] and
    [frame := record (NEWLINE record)*]. *)
Definition bulk_key_record (key : pyobj) : bytes :=
  Base64.b64encode (UNDERSCORE :: encode key) ++ [TAB].

Definition bulk_key_frame (keys : list pyobj) : bytes :=
  bytes_join NL (map bulk_key_record keys).

(** The item that [set_bulk] sends for a data item. *)
Definition bulk_item (kv : string * V) : pyobj * pyobj :=
  (PyStr ("_" ++ fst kv)%string, PyBytes (_encode_value client (snd kv))).

(** ** Further pieces of the source *)

(** [open]: the returned flag and the new value of [self._session]. *)
Definition open (_session : option Session) : bool * option Session :=
  match _session with
  | Some _ => (false, _session)
  | None => (true, Some {| content_type_header := _content_type |})
  end.

(** [close] *)
Definition close (_session : option Session) : bool * option Session :=
  match _session with
  | None => (false, _session)
  | Some _ => (true, None)
  end.

(** [decoder(field)] under [if decoder is not None]. *)
Definition apply_decoder (dec : option decoder) (field_ : bytes) : result bytes :=
  match dec with
  | Some d => d field_
  | None => Ok field_
  end.

(** The request mapping that [_simple_write] builds. *)
Definition simple_write_data (key : pyobj) (value : V) (expire_time : option Z)
  : dict pyobj pyobj :=
  let data :=
    [(PyStr "key", key); (PyStr "value", PyBytes (_encode_value client value))] in
  match expire_time with
  | Some xt => Dict.setitem (PyStr "xt") (PyStr (str_of_int xt)) data
  | None => data
  end.

(** The log of transport calls after an operation. *)
Definition run_posts (op : operation) (log : list call) : list call :=
  match op with
  | OpStatus db => snd (status db log)
  | OpReport => snd (report log)
  | OpClear db => snd (clear db log)
  | OpPlayScript name __data params => snd (play_script name __data params log)
  | OpGet key db => snd (get key db log)
  | OpSet key value db xt => snd (set key value db xt log)
  | OpAdd key value db xt => snd (add key value db xt log)
  | OpReplace key value db xt => snd (replace key value db xt log)
  | OpAppend key value db xt => snd (append key value db xt log)
  | OpRemove key db => snd (remove key db log)
  | OpCheck key db => snd (check key db log)
  | OpSetBulk data db xt => snd (set_bulk data db xt log)
  | OpGetBulk keys db => snd (get_bulk keys db log)
  | OpRemoveBulk keys db => snd (remove_bulk keys db log)
  | OpSeize key db => snd (seize key db log)
  | OpCas key old_val new_val db xt => snd (cas key old_val new_val db xt log)
  end.


(** * Properties *)

(** Drops the collaborators from the context of a proof that is not about
    them. *)
Ltac standalone :=
  try clear server; try clear client; try clear py_int; try clear decode;
  try clear encode; try clear V.

(** ** Small ranges *)

Lemma below_In k n : (n < N.of_nat k)%N -> In n (below k).
Proof.
  intros H. unfold below. apply in_map_iff. exists (N.to_nat n). split.
  - apply N2Nat.id.
  - apply in_seq. lia.
Qed.

Lemma below_forallb (P : N -> bool) k :
  forallb P (below k) = true -> forall n, (n < N.of_nat k)%N -> P n = true.
Proof.
  intros H n Hn. rewrite forallb_forall in H. apply H, below_In, Hn.
Qed.

(** ** Base64 *)

Import Base64.

(** Closes a goal [forall n, n < k -> P n = true] by running [P] on
    every number below [k]. *)
Ltac check_below k :=
  apply (below_forallb _ k); vm_compute; reflexivity.

(** The same, for a statement about one byte and one small number. *)
Ltac check_byte_below b k :=
  destruct b; check_below k.

Lemma table_a2b_b2a n : (n < 64)%N -> table_a2b (table_b2a n) = Some n.
Proof.
  intros Hn.
  assert (H : (match table_a2b (table_b2a n) with
               | Some m => N.eqb m n
               | None => false
               end) = true).
  { revert n Hn. check_below 64%nat. }
  destruct (table_a2b (table_b2a n)); [|discriminate].
  apply N.eqb_eq in H. now subst.
Qed.

Lemma table_b2a_plain n c :
  (n < 64)%N -> In c [PAD; TAB; NL] -> Byte.eqb (table_b2a n) c = false.
Proof.
  intros Hn Hc.
  assert (H : forallb (fun c => negb (Byte.eqb (table_b2a n) c)) [PAD; TAB; NL]
              = true).
  { revert n Hn. check_below 64%nat. }
  rewrite forallb_forall in H. apply negb_true_iff, H, Hc.
Qed.

Lemma hi4_lt (b : byte) : (N.shiftr (to_N b) 4 < 16)%N.
Proof. destruct b; vm_compute; reflexivity. Qed.

Lemma hi2_lt (c : byte) : (N.shiftr (to_N c) 6 < 4)%N.
Proof. destruct c; vm_compute; reflexivity. Qed.

Lemma sextet1_lt a : (sextet1 a < 64)%N.
Proof. destruct a; vm_compute; reflexivity. Qed.

Lemma sextet4_lt c : (sextet4 c < 64)%N.
Proof. destruct c; vm_compute; reflexivity. Qed.

Lemma sextet2_lt a x : (x < 16)%N -> (sextet2 a x < 64)%N.
Proof.
  intros Hx. apply N.ltb_lt. revert x Hx. check_byte_below a 16%nat.
Qed.

Lemma sextet3_lt b y : (y < 4)%N -> (sextet3 b y < 64)%N.
Proof.
  intros Hy. apply N.ltb_lt. revert y Hy. check_byte_below b 4%nat.
Qed.

(** What the decoder rebuilds from the sextets of a group. *)

Lemma first_byte a x :
  (x < 16)%N ->
  u8 (N.lor (N.shiftl (sextet1 a) 2) (N.shiftr (sextet2 a x) 4)) = a.
Proof.
  intros Hx. apply byte_dec_bl. revert x Hx. check_byte_below a 16%nat.
Qed.

Lemma left_after_second a x : (x < 16)%N -> N.land (sextet2 a x) 15 = x.
Proof.
  intros Hx. apply N.eqb_eq. revert x Hx. check_byte_below a 16%nat.
Qed.

Lemma second_byte b y :
  (y < 4)%N ->
  u8 (N.lor (N.shiftl (N.shiftr (to_N b) 4) 4) (N.shiftr (sextet3 b y) 2)) = b.
Proof.
  intros Hy. apply byte_dec_bl. revert y Hy. check_byte_below b 4%nat.
Qed.

Lemma left_after_third b y : (y < 4)%N -> N.land (sextet3 b y) 3 = y.
Proof.
  intros Hy. apply N.eqb_eq. revert y Hy. check_byte_below b 4%nat.
Qed.

Lemma third_byte c :
  u8 (N.lor (N.shiftl (N.shiftr (to_N c) 6) 6) (sextet4 c)) = c.
Proof. destruct c; vm_compute; reflexivity. Qed.

Lemma list_ind3 (A : Type) (P : list A -> Prop) :
  P [] ->
  (forall a, P [a]) ->
  (forall a b, P [a; b]) ->
  (forall a b c l, P l -> P (a :: b :: c :: l)) ->
  forall l, P l.
Proof.
  intros H0 H1 H2 H3. fix IH 1.
  intros [|a [|b [|c l]]]; [exact H0 | apply H1 | apply H2 | apply H3, IH].
Qed.

Lemma b64encode_group a b c rest :
  b64encode (a :: b :: c :: rest)
  = table_b2a (sextet1 a)
      :: table_b2a (sextet2 a (N.shiftr (to_N b) 4))
      :: table_b2a (sextet3 b (N.shiftr (to_N c) 6))
      :: table_b2a (sextet4 c)
      :: b64encode rest.
Proof. reflexivity. Qed.

(** One step of the decoder on a character of the alphabet. *)
Lemma a2b_base64_sextet n rest quad_pos leftchar pads :
  (n < 64)%N ->
  a2b_base64 (table_b2a n :: rest) quad_pos leftchar pads
  = match quad_pos with
    | O => a2b_base64 rest 1 n 0
    | 1%nat =>
        emit (u8 (N.lor (N.shiftl leftchar 2) (N.shiftr n 4)))
             (a2b_base64 rest 2 (N.land n 15) 0)
    | 2%nat =>
        emit (u8 (N.lor (N.shiftl leftchar 4) (N.shiftr n 2)))
             (a2b_base64 rest 3 (N.land n 3) 0)
    | _ =>
        emit (u8 (N.lor (N.shiftl leftchar 6) n)) (a2b_base64 rest 0 0 0)
    end.
Proof.
  intros Hn. cbn [a2b_base64].
  rewrite (table_b2a_plain (c := PAD) Hn) by (left; reflexivity).
  rewrite (table_a2b_b2a Hn). reflexivity.
Qed.

(** The first two characters of any group give back its first byte. *)
Lemma a2b_base64_two a x rest leftchar pads :
  (x < 16)%N ->
  a2b_base64 (table_b2a (sextet1 a) :: table_b2a (sextet2 a x) :: rest)
             0 leftchar pads
  = emit a (a2b_base64 rest 2 x 0).
Proof.
  intros Hx.
  rewrite (a2b_base64_sextet _ _ _ _ (sextet1_lt a)).
  rewrite (a2b_base64_sextet _ _ _ _ (sextet2_lt a Hx)).
  now rewrite first_byte, left_after_second.
Qed.

(** The third character gives back the second byte. *)
Lemma a2b_base64_third b y rest :
  (y < 4)%N ->
  a2b_base64 (table_b2a (sextet3 b y) :: rest) 2 (N.shiftr (to_N b) 4) 0
  = emit b (a2b_base64 rest 3 y 0).
Proof.
  intros Hy.
  rewrite (a2b_base64_sextet _ _ _ _ (sextet3_lt b Hy)).
  now rewrite second_byte, left_after_third.
Qed.

Lemma a2b_base64_fourth c rest :
  a2b_base64 (table_b2a (sextet4 c) :: rest) 3 (N.shiftr (to_N c) 6) 0
  = emit c (a2b_base64 rest 0 0 0).
Proof.
  rewrite (a2b_base64_sextet _ _ _ _ (sextet4_lt c)).
  now rewrite third_byte.
Qed.

Lemma a2b_base64_b64encode s :
  forall leftchar pads, a2b_base64 (b64encode s) 0 leftchar pads = Ok s.
Proof.
  induction s as [|a|a b|a b c rest IH] using list_ind3; intros leftchar pads.
  - reflexivity.
  - cbn [b64encode].
    rewrite a2b_base64_two by reflexivity. reflexivity.
  - cbn [b64encode].
    rewrite a2b_base64_two by apply hi4_lt.
    rewrite a2b_base64_third by reflexivity. reflexivity.
  - rewrite b64encode_group.
    rewrite a2b_base64_two by apply hi4_lt.
    rewrite a2b_base64_third by apply hi2_lt.
    rewrite a2b_base64_fourth, IH. reflexivity.
Qed.

(** [b64decode(b64encode(s)) == s] *)
Lemma b64decode_b64encode s : b64decode (b64encode s) = Ok s.
Proof. apply a2b_base64_b64encode. Qed.

(** The encoder's output holds neither a tab nor a newline. *)
Lemma b64encode_plain s c :
  In c [TAB; NL] -> ~ In c (b64encode s).
Proof.
  intros Hc.
  assert (Hpad : PAD <> c)
    by (destruct Hc as [<-|[<-|[]]]; discriminate).
  assert (Hsx : forall n, (n < 64)%N -> table_b2a n <> c).
  { intros n Hn. apply eqb_false, table_b2a_plain; [exact Hn|].
    right. exact Hc. }
  pose proof hi4_lt as H4. pose proof hi2_lt as H2.
  pose proof sextet1_lt as S1. pose proof sextet4_lt as S4.
  induction s as [|a|a b|a b c' rest IH] using list_ind3.
  - intros [].
  - cbn [b64encode In].
    intros [E|[E|[E|[E|[]]]]]; revert E;
      first [apply Hpad | apply Hsx; auto using sextet2_lt, sextet3_lt];
      apply sextet2_lt; reflexivity.
  - cbn [b64encode In].
    intros [E|[E|[E|[E|[]]]]]; revert E;
      first [apply Hpad | apply Hsx; auto using sextet2_lt, sextet3_lt];
      apply sextet3_lt; reflexivity.
  - rewrite b64encode_group. cbn [In].
    intros [E|[E|[E|[E|E]]]]; [revert E; apply Hsx; auto using sextet2_lt, sextet3_lt ..|auto].
Qed.

(** The model against values computed by Python. *)

Example b64encode_a : b64encode (bytes_of "a") = bytes_of "YQ==".
Proof. reflexivity. Qed.

Example b64encode_abcd : b64encode (bytes_of "abcd") = bytes_of "YWJjZA==".
Proof. reflexivity. Qed.

Example b64decode_stray_pad : b64decode (bytes_of "YQ=a=") = Ok [x61; x06].
Proof. reflexivity. Qed.

Example b64decode_skips_newline : b64decode (bytes_of "Y" ++ NL :: bytes_of "Q==")
                                  = Ok (bytes_of "a").
Proof. reflexivity. Qed.

Example b64decode_after_pad : b64decode (bytes_of "YQ==YQ==") = Ok (bytes_of "a").
Proof. reflexivity. Qed.

Example b64decode_one_char : b64decode (bytes_of "a") = Raise binascii_Error.
Proof. reflexivity. Qed.

Example b64decode_unpadded : b64decode (bytes_of "YWJjZA") = Raise binascii_Error.
Proof. reflexivity. Qed.

(** ** Splitting and joining *)

Lemma byte_eqb_refl (c : byte) : Byte.eqb c c = true.
Proof. now apply byte_dec_lb. Qed.

Lemma byte_eqb_neq (c d : byte) : c <> d -> Byte.eqb c d = false.
Proof.
  intros Hcd. destruct (Byte.eqb c d) eqn:E; [|reflexivity].
  now apply byte_dec_bl in E.
Qed.

(** A piece without the separator, followed by the separator. *)
Lemma bytes_split_app sep w s :
  ~ In sep w ->
  bytes_split sep (w ++ sep :: s) = w :: bytes_split sep s.
Proof.
  induction w as [|c w IH]; intros Hw; cbn [app bytes_split].
  - now rewrite byte_eqb_refl.
  - rewrite byte_eqb_neq by (intros ->; apply Hw; now left).
    rewrite IH by (intros Hin; apply Hw; now right). reflexivity.
Qed.

Lemma bytes_split_one sep w : ~ In sep w -> bytes_split sep w = [w].
Proof.
  induction w as [|c w IH]; intros Hw; cbn [bytes_split].
  - reflexivity.
  - rewrite byte_eqb_neq by (intros ->; apply Hw; now left).
    rewrite IH by (intros Hin; apply Hw; now right). reflexivity.
Qed.

(** [sep.join(l).split(sep) == l] for a non-empty [l] of pieces without
    the separator. *)
Lemma bytes_split_join sep l :
  l <> [] -> Forall (fun w => ~ In sep w) l ->
  bytes_split sep (bytes_join sep l) = l.
Proof.
  intros Hne Hl. induction Hl as [|w l Hw Hl IH]; [congruence|].
  destruct l as [|w' l'].
  - cbn [bytes_join]. apply bytes_split_one, Hw.
  - change (bytes_join sep (w :: w' :: l'))
      with (w ++ sep :: bytes_join sep (w' :: l')).
    rewrite bytes_split_app by exact Hw.
    rewrite IH by discriminate. reflexivity.
Qed.

Lemma bytes_split1_app sep a b :
  ~ In sep a -> bytes_split1 sep (a ++ sep :: b) = Some (a, b).
Proof.
  induction a as [|c a IH]; intros Ha; cbn [app bytes_split1].
  - now rewrite byte_eqb_refl.
  - rewrite byte_eqb_neq by (intros ->; apply Ha; now left).
    rewrite IH by (intros Hin; apply Ha; now right). reflexivity.
Qed.

(** A record without the separator does not unpack. *)
Lemma bytes_split1_none sep s : ~ In sep s <-> bytes_split1 sep s = None.
Proof.
  standalone.
  induction s as [|c s IH]; cbn [bytes_split1 In].
  - tauto.
  - destruct (Byte.eqb c sep) eqn:E.
    + apply byte_dec_bl in E. subst. split; [tauto|discriminate].
    + apply eqb_false in E.
      destruct (bytes_split1 sep s) as [[a b]|].
      * split; [|discriminate]. intros H. exfalso. apply H. right.
        destruct (in_dec byte_eq_dec sep s) as [Hin|Hin]; [exact Hin|].
        apply IH in Hin. discriminate.
      * split; [reflexivity|]. intros _ [Hc|Hin]; [congruence|].
        now apply IH in Hin.
Qed.

(** The value side of a record keeps every later separator. *)
Lemma bytes_split1_first sep s a b :
  bytes_split1 sep s = Some (a, b) -> s = a ++ sep :: b /\ ~ In sep a.
Proof.
  standalone.
  revert a. induction s as [|c s IH]; intros a; cbn [bytes_split1].
  - discriminate.
  - destruct (Byte.eqb c sep) eqn:E.
    + apply byte_dec_bl in E. subst. intros [= <- <-]. split; [reflexivity|].
      intros [].
    + apply eqb_false in E.
      destruct (bytes_split1 sep s) as [[a' b']|]; [|discriminate].
      intros [= <- <-]. destruct (IH a' eq_refl) as [-> Ha].
      split; [reflexivity|]. intros [Hc|Hin]; [congruence|tauto].
Qed.

Example split_empty : bytes_split NL [] = [[]].
Proof. reflexivity. Qed.

Example split_trailing_newline :
  bytes_split NL (bytes_of "a" ++ [NL]) = [bytes_of "a"; []].
Proof. reflexivity. Qed.

Example split1_keeps_later_tabs :
  bytes_split1 TAB (bytes_of "a" ++ TAB :: bytes_of "b" ++ TAB :: bytes_of "c")
  = Some (bytes_of "a", bytes_of "b" ++ TAB :: bytes_of "c").
Proof. reflexivity. Qed.

Example unquote_to_bytes_escapes :
  Url.unquote_to_bytes (bytes_of "a%20b%zz%4") = bytes_of "a b%zz%4".
Proof. reflexivity. Qed.

(** A loop that appends to [accum] builds a [map]. *)
Lemma fold_left_append (A B : Type) (f : A -> B) l acc :
  fold_left (fun accum x => accum ++ [f x]) l acc = acc ++ map f l.
Proof.
  revert acc. induction l as [|x l IH]; intros acc; cbn [fold_left map].
  - now rewrite app_nil_r.
  - rewrite IH, <- app_assoc. reflexivity.
Qed.

(** ** Dictionaries *)

Section DictFacts.
Context {K W : Type} `{EqDec K}.

Lemma get_setitem_same (k : K) (v : W) d : Dict.get k (Dict.setitem k v d) = Some v.
Proof.
  induction d as [|[k' v'] d IH]; cbn [Dict.setitem Dict.get].
  - destruct (eq_dec k k); congruence.
  - destruct (eq_dec k k') as [->|Hne]; cbn [Dict.get].
    + destruct (eq_dec k' k'); congruence.
    + destruct (eq_dec k k'); [congruence|exact IH].
Qed.


(** Assigning to a new key appends the item. *)
Lemma setitem_new (k : K) (v : W) d :
  ~ In k (Dict.keys d) -> Dict.setitem k v d = d ++ [(k, v)].
Proof.
  induction d as [|[k' v'] d IH]; cbn [Dict.setitem Dict.keys map fst In app];
    intros Hk.
  - reflexivity.
  - destruct (eq_dec k k') as [->|Hne]; [tauto|].
    rewrite IH by tauto. reflexivity.
Qed.

Lemma keys_setitem_new (k : K) (v : W) d :
  ~ In k (Dict.keys d) -> Dict.keys (Dict.setitem k v d) = Dict.keys d ++ [k].
Proof.
  intros Hk. rewrite setitem_new by exact Hk.
  unfold Dict.keys. now rewrite map_app.
Qed.

Lemma get_None_iff (k : K) (d : dict K W) :
  Dict.get k d = None <-> ~ In k (Dict.keys d).
Proof.
  induction d as [|[k' v'] d IH]; cbn [Dict.get Dict.keys map fst In].
  - tauto.
  - destruct (eq_dec k k') as [->|Hne].
    + split; [discriminate|tauto].
    + rewrite IH. unfold Dict.keys. split; [intros Hn [E|Hin]; congruence|tauto].
Qed.

Lemma get_In (k : K) (v : W) (d : dict K W) :
  NoDup (Dict.keys d) -> In (k, v) d -> Dict.get k d = Some v.
Proof.
  induction d as [|[k' v'] d IH]; cbn [Dict.get Dict.keys map fst In].
  - tauto.
  - intros Hnd [E|Hin].
    + injection E as -> ->. destruct (eq_dec k k); congruence.
    + inversion Hnd as [|? ? Hk' Hnd']; subst.
      destruct (eq_dec k k') as [->|Hne].
      * exfalso. apply Hk'. unfold Dict.keys.
        change k' with (fst (k', v)). now apply in_map.
      * now apply IH.
Qed.

End DictFacts.

Lemma fold_setitem_fresh (K W : Type) `{EqDec K} (l acc : dict K W) :
  NoDup (Dict.keys (acc ++ l)) ->
  fold_left (fun a kv => Dict.setitem (fst kv) (snd kv) a) l acc = acc ++ l.
Proof.
  revert acc. induction l as [|[k v] l IH]; intros acc Hnd; cbn [fold_left].
  - now rewrite app_nil_r.
  - assert (Hk : ~ In k (Dict.keys acc)).
    { unfold Dict.keys in *. rewrite map_app in Hnd. cbn [map fst] in Hnd.
      apply NoDup_remove_2 in Hnd. intros Hin. apply Hnd, in_or_app. now left. }
    cbn [fst snd]. rewrite setitem_new by exact Hk.
    rewrite IH; rewrite <- app_assoc; [reflexivity|exact Hnd].
Qed.

(** ** The key-value frame *)

Lemma encode_keys_values_records data :
  _encode_keys_values data = bytes_join NL (map record data).
Proof.
  unfold _encode_keys_values. f_equal.
  exact (fold_left_append record data []).
Qed.

Lemma record_one_line kv : ~ In NL (record kv).
Proof.
  unfold record. intros Hin. apply in_app_or in Hin.
  destruct Hin as [Hin|[E|Hin]]; [|discriminate|];
    revert Hin; apply b64encode_plain; right; left; reflexivity.
Qed.

Lemma record_unpacks kv :
  bytes_split1 TAB (record kv)
  = Some (b64encode (encode (fst kv)), b64encode (encode (snd kv))).
Proof.
  unfold record. apply bytes_split1_app, b64encode_plain. now left.
Qed.

(** Decoding the records of an encoded mapping assigns every encoded key
    its encoded value, in order. *)
Lemma decode_lines_records data accum :
  _decode_keys client = false ->
  decode_lines (Some b64decode) (map record data) accum
  = Ok (fold_left
          (fun a kv => Dict.setitem (PyBytes (encode (fst kv))) (encode (snd kv)) a)
          data accum).
Proof.
  intros Hkeys. revert accum.
  induction data as [|kv data IH]; intros accum; cbn [map decode_lines fold_left].
  - reflexivity.
  - rewrite record_unpacks, !b64decode_b64encode. cbn [rbind fst snd].
    rewrite Hkeys. cbn [rbind]. apply IH.
Qed.

Lemma as_frame_keys_NoDup d :
  NoDup (Dict.keys d) -> NoDup (Dict.keys (as_frame d)).
Proof.
  unfold Dict.keys, as_frame. rewrite map_map. cbn [fst].
  induction d as [|[k v] d IH]; cbn [map fst]; intros Hnd.
  - constructor.
  - inversion Hnd as [|? ? Hk Hnd']; subst. constructor; [|now apply IH].
    intros Hin. apply in_map_iff in Hin. destruct Hin as [[k' v'] [E Hin]].
    injection E as ->. apply Hk. change k with (fst (k, v')). now apply in_map.
Qed.

(** With [encode] the identity on bytes, the decoder's assignments are
    those of the mapping itself. *)
Lemma decode_as_data d accum :
  (forall b, encode (PyBytes b) = b) ->
  fold_left
    (fun a kv => Dict.setitem (PyBytes (encode (fst kv))) (encode (snd kv)) a)
    (as_data d) accum
  = fold_left (fun a kv => Dict.setitem (fst kv) (snd kv) a) (as_frame d) accum.
Proof.
  intros Henc. revert accum.
  induction d as [|[k v] d IH]; intros accum; cbn [as_data as_frame map fold_left].
  - reflexivity.
  - cbn [fst snd]. rewrite !Henc. apply IH.
Qed.

(** C1. Frame round trip: encoding a mapping of byte keys to byte values
    with the key-value frame encoder and decoding the frame under a content
    type that ends in [colenc=B], keys left as bytes, gives the mapping
    back; the empty mapping included. *)
Theorem frame_roundtrip (d : dict bytes bytes) (content_type : string) :
  (forall b, encode (PyBytes b) = b) ->
  _decode_keys client = false ->
  NoDup (Dict.keys d) ->
  endswith content_type "colenc=B" = true ->
  _decode_response (_encode_keys_values (as_data d)) content_type
  = Ok (as_frame d).
Proof.
  intros Henc Hkeys Hnd Hct.
  unfold _decode_response, decode_from_content_type. rewrite Hct.
  rewrite encode_keys_values_records.
  destruct d as [|kv d].
  - reflexivity.
  - rewrite bytes_split_join.
    + rewrite decode_lines_records by exact Hkeys.
      rewrite decode_as_data by exact Henc.
      apply (f_equal Ok), (fold_setitem_fresh (as_frame (kv :: d)) []).
      now apply as_frame_keys_NoDup.
    + discriminate.
    + apply Forall_forall. intros w Hw. apply in_map_iff in Hw.
      destruct Hw as [x [<- _]]. apply record_one_line.
Qed.

(** ** [request] *)

(** Every [request] posts once; the status decides between the protocol
    error and the decoded frame. *)
Lemma request_unfold path_ data db allowed_status log :
  let c := (path (db_path path_ db), request_body data) in
  let r := server log c in
  request path_ data db allowed_status log
  = (if rejected (status_code r) allowed_status
     then Raise (ProtocolError
                   ("protocol error [" ++ str_of_int (status_code r) ++ "]")%string)
     else rmap (fun resp => (resp, status_code r))
               (_decode_response (content r) (content_type r)),
     log ++ [c]).
Proof.
  intros c r. unfold request, bind, _post. fold c. fold r.
  destruct (rejected (status_code r) allowed_status); [reflexivity|].
  unfold lift, ret, rmap.
  destruct (_decode_response (content r) (content_type r)); reflexivity.
Qed.

Lemma rejected_iff s allowed_status :
  rejected s allowed_status = true
  <-> s <> 200%Z /\ match allowed_status with
                    | None => True
                    | Some allowed => ~ In s allowed
                    end.
Proof.
  unfold rejected. rewrite andb_true_iff, negb_true_iff, Z.eqb_neq.
  destruct allowed_status as [allowed|]; [|tauto].
  rewrite negb_true_iff.
  split; intros [Hs Hin]; (split; [exact Hs|]).
  - intros Hin'. apply Bool.not_true_iff_false in Hin. apply Hin.
    apply existsb_exists. exists s. split; [exact Hin'|apply Z.eqb_refl].
  - apply Bool.not_true_iff_false. intros Hex. apply Hin.
    apply existsb_exists in Hex. destruct Hex as [x [Hx E]].
    apply Z.eqb_eq in E. now subst.
Qed.

Lemma raised_request_rejected A path_ data db allowed_status
      (k : dict pyobj bytes * Z -> io A) log s :
  (forall h c, status_code (server h c) = s) ->
  rejected s allowed_status = true ->
  raised (bind (request path_ data db allowed_status) k) log
  = Some (protocol_error s).
Proof.
  intros Hs Hrej. unfold raised, bind. rewrite request_unfold, Hs, Hrej.
  reflexivity.
Qed.

Lemma raised_request_accepted A path_ data db allowed_status
      (k : dict pyobj bytes * Z -> io A) log s :
  (forall h c, status_code (server h c) = s) ->
  rejected s allowed_status = false ->
  raised (bind (request path_ data db allowed_status) k) log
  = match _decode_response
            (content (server log (path (db_path path_ db), request_body data)))
            (content_type (server log (path (db_path path_ db), request_body data)))
    with
    | Ok resp =>
        raised (k (resp, s)) (log ++ [(path (db_path path_ db), request_body data)])
    | Raise e => Some e
    end.
Proof.
  intros Hs Hrej. unfold raised, bind. rewrite request_unfold, Hs, Hrej.
  destruct (_decode_response _ _); reflexivity.
Qed.

Lemma rejected_not_acceptable s l :
  ~ In s (200%Z :: l) ->
  rejected s None = true /\ rejected s (Some l) = true.
Proof.
  intros Hs.
  assert (H200 : s <> 200%Z) by (intros ->; apply Hs; now left).
  assert (Hl : ~ In s l) by (intros Hin; apply Hs; now right).
  split; apply rejected_iff; now split.
Qed.

(** A status outside the operation's acceptable set reaches the caller
    as a protocol error, whatever the operation. *)
Lemma operation_rejected op log s :
  (forall h c, status_code (server h c) = s) ->
  ~ In s (200%Z :: acceptable op) ->
  is_misuse op = false ->
  run_raised op log = Some (protocol_error s).
Proof.
  intros Hs Hin Hm.
  destruct (rejected_not_acceptable Hin) as [HN HS].
  destruct op; cbn [run_raised acceptable] in *;
    try (destruct old_val, new_val; try discriminate Hm);
    unfold status, report, clear, play_script, get, set, add, replace, append,
      _simple_write, remove, check, set_bulk, get_bulk, remove_bulk, seize, cas;
    now apply raised_request_rejected.
Qed.

(** With status 450 and a body that decodes, no operation that declares
    450 acceptable raises. *)
Lemma operation_450 op log :
  (forall h c, status_code (server h c) = 450%Z) ->
  (forall h c, exists resp,
      _decode_response (content (server h c)) (content_type (server h c))
      = Ok resp) ->
  In 450%Z (acceptable op) ->
  is_misuse op = false ->
  run_raised op log = None.
Proof.
  intros Hs Hbody Hin Hm.
  assert (Hacc : rejected 450 (Some [450%Z]) = false) by reflexivity.
  destruct op; cbn [run_raised acceptable In] in *; try tauto;
    try (destruct old_val, new_val; try discriminate Hm);
    unfold play_script, get, set, add, replace, append,
      _simple_write, remove, check, seize, cas;
    rewrite raised_request_accepted with (s := 450%Z) by assumption;
    match goal with
    | |- context [_decode_response (content (server ?h ?c)) _] =>
        destruct (Hbody h c) as [resp ->]
    end;
    reflexivity.
Qed.

(** C2. The status policy of [request].  A status that is neither 200 nor
    in [allowed_status] raises the protocol error that carries the code,
    before the body is looked at.  Any other status raises no protocol
    error: the outcome is that of decoding the body, paired with the
    status.  Seen from the operations: a status outside the acceptable set
    of an operation surfaces as that protocol error, and 450 with a body
    that decodes raises nothing in the operations that accept it. *)
Theorem request_status_policy path_ data db allowed_status log :
  let c := (path (db_path path_ db), request_body data) in
  let r := server log c in
  let s := status_code r in
  (s <> 200%Z ->
   match allowed_status with
   | None => True
   | Some allowed => ~ In s allowed
   end ->
   request path_ data db allowed_status log
   = (Raise (protocol_error s), log ++ [c]))
  /\ (s = 200%Z \/ (exists allowed, allowed_status = Some allowed /\ In s allowed) ->
      request path_ data db allowed_status log
      = (rmap (fun resp => (resp, s))
              (_decode_response (content r) (content_type r)),
         log ++ [c]))
  /\ (forall op code,
         (forall h c, status_code (server h c) = code) ->
         ~ In code (200%Z :: acceptable op) ->
         is_misuse op = false ->
         run_raised op log = Some (protocol_error code))
  /\ (forall op,
         (forall h c, status_code (server h c) = 450%Z) ->
         (forall h c, exists resp,
             _decode_response (content (server h c)) (content_type (server h c))
             = Ok resp) ->
         In 450%Z (acceptable op) ->
         is_misuse op = false ->
         run_raised op log = None).
Proof.
  intros c r s. repeat split.
  - intros H200 Hallowed. rewrite request_unfold. fold c r s.
    replace (rejected s allowed_status) with true; [reflexivity|].
    symmetry. apply rejected_iff. now split.
  - intros Hacc. rewrite request_unfold. fold c r s.
    replace (rejected s allowed_status) with false; [reflexivity|].
    symmetry. apply Bool.not_true_iff_false. rewrite rejected_iff.
    intros [H200 Hallowed].
    destruct Hacc as [E|[allowed [-> Hin]]]; [congruence|tauto].
  - intros op code. apply operation_rejected.
  - intros op. apply operation_450.
Qed.

(** ** The database selector *)

Lemma string_app_nil_inv (s t : string) : (s ++ t)%string = s -> t = EmptyString.
Proof.
  induction s as [|c s IH]; cbn [String.append].
  - auto.
  - intros [= E]. auto.
Qed.

(** C4. The database selector in the URL.  [_post] leaves the path alone
    exactly when [db] is [False]; every other selector, [None] included, is
    formatted with [%s] and appended as [?DB=<db>]. *)
Theorem post_db_selector path_ body db log :
  snd (_post path_ body db log) = log ++ [(path (db_path path_ db), body)]
  /\ (db_path path_ db = path_ <-> db = DbFalse)
  /\ (db <> DbFalse ->
      db_path path_ db = (path_ ++ "?DB=" ++ format_db db)%string)
  /\ format_db DbNone = "None".
Proof.
  split; [reflexivity|]. split; [|split; [|reflexivity]].
  - split; [|intros ->; reflexivity].
    destruct db; cbn [db_path]; intros E; try reflexivity;
      apply string_app_nil_inv in E; discriminate.
  - destruct db; [congruence|reflexivity..].
Qed.

(** ** [cas] *)

(** A posting operation's continuation does not post again. *)
Lemma snd_bind_request A path_ data db allowed_status
      (k : dict pyobj bytes * Z -> io A) log :
  (forall x l, snd (k x l) = l) ->
  snd (bind (request path_ data db allowed_status) k log)
  = log ++ [(path (db_path path_ db), request_body data)].
Proof.
  intros Hk. unfold bind. rewrite request_unfold.
  destruct (rejected _ _); [reflexivity|].
  destruct (_decode_response _ _); cbn [rmap rbind]; [apply Hk|reflexivity].
Qed.

(** C5. [cas] without an old and without a new value raises [ValueError],
    which is not a protocol error, and posts nothing.  With at least one of
    them, the one request carries the frame of a mapping whose keys are
    [key], then [oval] and [nval] for the sides that were given (with the
    encoded values), then [xt] if an expiry was given. *)
Theorem cas_usage key old_val new_val db expire_time log :
  match old_val, new_val with
  | None, None =>
      cas key old_val new_val db expire_time log
      = (Raise (ValueError "old value and/or new value must be specified."), log)
      /\ (forall msg,
             ValueError "old value and/or new value must be specified."
             <> ProtocolError msg)
  | _, _ =>
      let data := cas_data key old_val new_val expire_time in
      snd (cas key old_val new_val db expire_time log)
      = log ++ [(path (db_path "/cas" db), bytes_join NL (map record data))]
      /\ Dict.keys data
         = PyStr "key" :: present old_val "oval" ++ present new_val "nval"
                       ++ present expire_time "xt"
      /\ Dict.get (PyStr "oval") data
         = option_map (fun o => PyBytes (_encode_value client o)) old_val
      /\ Dict.get (PyStr "nval") data
         = option_map (fun n => PyBytes (_encode_value client n)) new_val
  end.
Proof.
  assert (Hpost : forall data,
             snd (bind (request "/cas" (DataDict data) db (Some [450%Z]))
                       (fun rs => ret (negb (snd rs =? 450)%Z)) log)
             = log ++ [(path (db_path "/cas" db), bytes_join NL (map record data))]).
  { intros data. rewrite snd_bind_request by reflexivity.
    cbn [request_body]. now rewrite encode_keys_values_records. }
  destruct old_val as [o|], new_val as [n|]; cbn [cas];
    try (split; [reflexivity|discriminate]);
    (split; [apply Hpost|]);
    destruct expire_time; repeat split; reflexivity.
Qed.

(** ** Decoded frames are dictionaries *)

Lemma keys_setitem (K W : Type) `{EqDec K} (k : K) (v : W) d :
  Dict.keys (Dict.setitem k v d)
  = if in_dec eq_dec k (Dict.keys d) then Dict.keys d else Dict.keys d ++ [k].
Proof.
  induction d as [|[k' v'] d IH]; cbn [Dict.setitem Dict.keys map fst].
  - destruct (in_dec eq_dec k []) as [[]|_]. reflexivity.
  - destruct (eq_dec k k') as [->|Hne].
    + destruct (in_dec eq_dec k' (k' :: map fst d)) as [_|Hn]; [reflexivity|].
      exfalso. apply Hn. now left.
    + cbn [Dict.keys map fst]. fold (Dict.keys d).
      fold (Dict.keys (Dict.setitem k v d)). rewrite IH.
      destruct (in_dec eq_dec k (Dict.keys d)) as [Hin|Hn];
        destruct (in_dec eq_dec k (k' :: Dict.keys d)) as [Hin'|Hn'];
        try reflexivity.
      * exfalso. apply Hn'. now right.
      * destruct Hin' as [E|Hin']; [congruence|tauto].
Qed.

Lemma setitem_NoDup (K W : Type) `{EqDec K} (k : K) (v : W) d :
  NoDup (Dict.keys d) -> NoDup (Dict.keys (Dict.setitem k v d)).
Proof.
  intros Hnd. rewrite keys_setitem.
  destruct (in_dec eq_dec k (Dict.keys d)) as [Hin|Hn]; [exact Hnd|].
  apply NoDup_app; [exact Hnd|repeat constructor; intros []|].
  intros x Hx [<-|[]]. tauto.
Qed.

Lemma decode_lines_NoDup dec lines accum resp :
  NoDup (Dict.keys accum) ->
  decode_lines dec lines accum = Ok resp ->
  NoDup (Dict.keys resp).
Proof.
  revert accum. induction lines as [|line lines IH]; intros accum Hnd;
    cbn [decode_lines].
  - now intros [= <-].
  - destruct (bytes_split1 TAB line) as [[key value]|]; [|now apply IH].
    destruct (match dec with
              | Some d => (k <- d key ;; v <- d value ;; Ok (k, v))%result
              | None => Ok (key, value)
              end) as [kv|e]; cbn [rbind]; [|discriminate].
    destruct (if _decode_keys client
              then rmap PyStr (decode (fst kv))
              else Ok (PyBytes (fst kv))) as [key'|e]; cbn [rbind];
      [|discriminate].
    apply IH. now apply setitem_NoDup.
Qed.

Lemma decode_response_NoDup tsv content_type resp :
  _decode_response tsv content_type = Ok resp -> NoDup (Dict.keys resp).
Proof. apply decode_lines_NoDup. constructor. Qed.



(** ** [get] *)

(** C7. [get] when the response body decodes to a frame: status 450 gives
    the absence sentinel and raises nothing; status 200 gives the frame's
    [value] field passed through the value codec's decode.  When the body
    does not decode, the decoder's exception is what [get] raises, under
    either status. *)
Theorem get_outcome key db log :
  let c := (path (db_path "/get" db), _encode_keys_values [(PyStr "key", key)]) in
  let r := server log c in
  (forall resp,
      _decode_response (content r) (content_type r) = Ok resp ->
      status_code r = 450%Z ->
      get key db log = (Ok None, log ++ [c]))
  /\ (forall resp value,
         _decode_response (content r) (content_type r) = Ok resp ->
         status_code r = 200%Z ->
         Dict.get (field "value") resp = Some value ->
         get key db log = (rmap Some (_decode_value client value), log ++ [c]))
  /\ (forall e,
         _decode_response (content r) (content_type r) = Raise e ->
         status_code r = 450%Z \/ status_code r = 200%Z ->
         get key db log = (Raise e, log ++ [c])).
Proof.
  intros c r. unfold get, bind. rewrite request_unfold. cbn [request_body].
  fold c r. repeat split.
  - intros resp -> ->. reflexivity.
  - intros resp value -> -> Hv. cbn. unfold getitem, lift. rewrite Hv.
    destruct (_decode_value client value); reflexivity.
  - intros e -> [-> | ->]; reflexivity.
Qed.

(** ** [get_bulk] *)

(** When every value decodes, the loop over the response assigns each
    decoded value to its key without the first character, in order. *)
Lemma strip_and_decode_assigns items vs accum :
  Forall2 (fun kv v => _decode_value client (snd kv) = Ok v) items vs ->
  strip_and_decode items accum
  = Ok (fold_left (fun a kv => Dict.setitem (fst kv) (snd kv) a)
                  (combine (map slice1 (Dict.keys items)) vs) accum).
Proof.
  intros Hall. revert accum.
  induction Hall as [|[k value] v items vs Hv Hall IH]; intros accum.
  - reflexivity.
  - cbn [strip_and_decode Dict.keys map fst combine fold_left].
    cbn [snd] in Hv. rewrite Hv. cbn [rbind]. apply IH.
Qed.







(** ** The bulk-key frame *)

(** C9. The bulk-key frame encoder emits one record per key, in order:
    the base64 of an underscore followed by the key's bytes, one tab, and
    an empty value; the records are joined by single newlines.  Read back,
    the frame splits into these records at the newlines, and each record
    unpacks at its tab into the base64 text, which decodes to underscore
    and key, and the empty value. *)
Theorem encode_keys_frame keys :
  _encode_keys keys = bulk_key_frame keys
  /\ bytes_split NL (_encode_keys keys)
     = match keys with
       | [] => [[]]
       | _ :: _ => map bulk_key_record keys
       end
  /\ Forall
       (fun key =>
          bytes_split1 TAB (bulk_key_record key)
          = Some (b64encode (UNDERSCORE :: encode key), [])
          /\ b64decode (b64encode (UNDERSCORE :: encode key))
             = Ok (UNDERSCORE :: encode key))
       keys.
Proof.
  assert (Hframe : _encode_keys keys = bulk_key_frame keys).
  { unfold _encode_keys, bulk_key_frame. f_equal.
    exact (fold_left_append bulk_key_record keys []). }
  split; [exact Hframe|]. split.
  - rewrite Hframe. unfold bulk_key_frame.
    destruct keys as [|key keys]; [reflexivity|].
    apply bytes_split_join; [discriminate|].
    apply Forall_forall. intros w Hw. apply in_map_iff in Hw.
    destruct Hw as [x [<- _]]. unfold bulk_key_record.
    intros Hin. apply in_app_or in Hin. destruct Hin as [Hin|[E|[]]].
    + revert Hin. apply b64encode_plain. right. now left.
    + discriminate.
  - apply Forall_forall. intros key _. split.
    + unfold bulk_key_record. apply bytes_split1_app, b64encode_plain. now left.
    + apply b64decode_b64encode.
Qed.

(** ** [set_bulk] *)

Lemma fold_left_through_map (A B C : Type) (f : C -> B -> C) (g : A -> B) l acc :
  fold_left (fun a x => f a (g x)) l acc = fold_left f (map g l) acc.
Proof.
  revert acc. induction l as [|x l IH]; intros acc; cbn [map fold_left].
  - reflexivity.
  - apply IH.
Qed.

Lemma bulk_item_keys_NoDup data :
  NoDup (Dict.keys data) -> NoDup (Dict.keys (map bulk_item data)).
Proof.
  unfold Dict.keys. rewrite map_map. cbn [bulk_item fst].
  induction data as [|[k v] data IH]; cbn [map fst]; intros Hnd.
  - constructor.
  - inversion Hnd as [|? ? Hk Hnd']; subst. constructor; [|now apply IH].
    intros Hin. apply in_map_iff in Hin. destruct Hin as [[k' v'] [E Hin]].
    cbn [fst] in E. injection E as ->. apply Hk.
    change k with (fst (k, v')). now apply in_map.
Qed.

(** [prefix_and_encode] appends the items when no key repeats. *)
Lemma prefix_and_encode_fresh data accum :
  NoDup (Dict.keys (accum ++ map bulk_item data)) ->
  prefix_and_encode data accum = accum ++ map bulk_item data.
Proof.
  intros Hnd. unfold prefix_and_encode.
  rewrite (fold_left_through_map
             (fun a kv => Dict.setitem (fst kv) (snd kv) a) bulk_item).
  now apply fold_setitem_fresh.
Qed.

(** [str(n)] is the decimal text of [n]. *)
Lemma str_of_int_decimal n :
  option_map Z.of_int (NilZero.int_of_string (str_of_int n)) = Some n.
Proof.
  unfold str_of_int. destruct n as [|p|p].
  - reflexivity.
  - rewrite NilZero.isi.
    + cbn [option_map]. f_equal. apply (DecimalZ.of_to (Z.pos p)).
    + cbn. intros [= E]. now apply Unsigned.to_uint_nonnil in E.
    + discriminate.
  - rewrite NilZero.isi.
    + cbn [option_map]. f_equal. apply (DecimalZ.of_to (Z.neg p)).
    + discriminate.
    + cbn. intros [= E]. now apply Unsigned.to_uint_nonnil in E.
Qed.

(** C10. [set_bulk] with an expiry.  The request mapping starts with the
    item [xt], whose key has no underscore and whose value is the decimal
    text of the expiry, not an encoded value; it goes on with one item per
    data item, the key prefixed with an underscore and the value encoded by
    the value codec.  The one request carries the frame of that mapping. *)
Theorem set_bulk_frame data db xt log :
  NoDup (Dict.keys data) ->
  let accum := (PyStr "xt", PyStr (str_of_int xt)) :: map bulk_item data in
  set_bulk_data data (Some xt) = accum
  /\ snd (set_bulk data db (Some xt) log)
     = log ++ [(path (db_path "/set_bulk" db), bytes_join NL (map record accum))]
  /\ option_map Z.of_int (NilZero.int_of_string (str_of_int xt)) = Some xt
  /\ Forall (fun kv => exists k v,
                 In (k, v) data
                 /\ kv = (PyStr (String "_" k), PyBytes (_encode_value client v)))
            (map bulk_item data).
Proof.
  intros Hnd accum.
  assert (Hdata : set_bulk_data data (Some xt) = accum).
  { unfold set_bulk_data. cbn [Dict.setitem].
    apply (prefix_and_encode_fresh data [_]).
    cbn [app Dict.keys map fst]. constructor.
    - intros Hin. rewrite map_map in Hin. apply in_map_iff in Hin.
      destruct Hin as [[k v] [E _]]. cbn in E. discriminate E.
    - now apply bulk_item_keys_NoDup. }
  split; [exact Hdata|]. split; [|split].
  - unfold set_bulk. rewrite snd_bind_request by reflexivity.
    cbn [request_body]. now rewrite Hdata, encode_keys_values_records.
  - apply str_of_int_decimal.
  - apply Forall_forall. intros kv Hin. apply in_map_iff in Hin.
    destruct Hin as [[k v] [<- Hin]]. now exists k, v.
Qed.

(** [set_bulk] hands back the decoded frame of [request] as it is. *)
Lemma set_bulk_returns_frame data db expire_time log :
  fst (set_bulk data db expire_time log)
  = rmap fst (fst (request "/set_bulk"
                           (DataDict (set_bulk_data data expire_time)) db None log)).
Proof.
  unfold set_bulk, bind.
  destruct (request _ _ _ _ log) as [[rs|e] log']; reflexivity.
Qed.

(** ** [_decode_response] *)

(** The decoder follows the suffix of the content type. *)
Lemma decode_from_content_type_cases content_type :
  decode_from_content_type content_type
  = if endswith content_type "colenc=B" then Some b64decode
    else if endswith content_type "colenc=U" then Some unquote_b
         else None.
Proof. reflexivity. Qed.

(** A record without a tab is skipped. *)
Lemma decode_lines_tabless dec line rest accum :
  ~ In TAB line ->
  decode_lines dec (line :: rest) accum = decode_lines dec rest accum.
Proof.
  intros Hline. apply bytes_split1_none in Hline.
  cbn [decode_lines]. now rewrite Hline.
Qed.

(** A record is cut at its first tab; without a content-type suffix the
    two fields are taken as they are, and a record after it that has no
    tab leaves no trace. *)
Lemma decode_response_tolerant content_type k v junk :
  decode_from_content_type content_type = None ->
  _decode_keys client = false ->
  ~ In TAB k -> ~ In NL k -> ~ In NL v -> ~ In TAB junk -> ~ In NL junk ->
  _decode_response (k ++ TAB :: v ++ NL :: junk) content_type
  = Ok [(PyBytes k, v)].
Proof.
  clear py_int.
  intros Hct Hkeys Htk Hnk Hnv Htj Hnj.
  unfold _decode_response. rewrite Hct.
  assert (Hline : ~ In NL (k ++ TAB :: v)).
  { intros Hin. apply in_app_or in Hin.
    destruct Hin as [Hin|[E|Hin]]; [tauto|discriminate|tauto]. }
  replace (k ++ TAB :: v ++ NL :: junk) with ((k ++ TAB :: v) ++ NL :: junk)
    by (now rewrite <- app_assoc).
  rewrite bytes_split_app by exact Hline.
  rewrite bytes_split_one by exact Hnj. cbn [decode_lines].
  rewrite bytes_split1_app by exact Htk. cbn [rbind fst snd].
  rewrite Hkeys. cbn [rbind].
  apply bytes_split1_none in Htj. now rewrite Htj.
Qed.

Lemma bytes_split_In sep c s :
  c <> sep -> In c s -> exists w, In w (bytes_split sep s) /\ In c w.
Proof.
  intros Hc. induction s as [|x s IH]; cbn [bytes_split In]; [tauto|].
  intros Hin. destruct (Byte.eqb x sep) eqn:E.
  - apply byte_dec_bl in E. subst x.
    destruct Hin as [Hx|Hin]; [congruence|].
    destruct (IH Hin) as [w [Hw Hcw]]. exists w. split; [now right|exact Hcw].
  - destruct (bytes_split sep s) as [|w ws] eqn:Hsplit.
    + exists [x]. destruct Hin as [Hx|Hin].
      * subst. split; now left.
      * destruct (IH Hin) as [w [[] _]].
    + destruct Hin as [Hx|Hin].
      * subst. exists (c :: w). split; now left.
      * destruct (IH Hin) as [w' [[Hw|Hw] Hcw]].
        -- subst w'. exists (x :: w). split; [now left|now right].
        -- exists w'. split; [now right|exact Hcw].
Qed.

(** The decoder chosen for [colenc=U] fails on its first call. *)
Lemma decode_lines_unquote_b lines accum :
  (exists line, In line lines /\ In TAB line) ->
  decode_lines (Some unquote_b) lines accum
  = Raise (TypeError "unquote_to_bytes() got an unexpected keyword argument 'safe'").
Proof.
  revert accum. induction lines as [|line lines IH]; intros accum [w [Hw Htab]].
  - destruct Hw.
  - cbn [decode_lines].
    destruct (bytes_split1 TAB line) as [[key value]|] eqn:Hline.
    + reflexivity.
    + apply bytes_split1_none in Hline.
      destruct Hw as [->|Hw]; [contradiction|].
      apply IH. now exists w.
Qed.

Lemma decode_response_colenc_U tsv content_type :
  endswith content_type "colenc=B" = false ->
  endswith content_type "colenc=U" = true ->
  In TAB tsv ->
  _decode_response tsv content_type
  = Raise (TypeError "unquote_to_bytes() got an unexpected keyword argument 'safe'").
Proof.
  intros HB HU Htab. unfold _decode_response, decode_from_content_type.
  rewrite HB, HU. apply decode_lines_unquote_b.
  apply bytes_split_In; [discriminate|exact Htab].
Qed.

(** * Further properties of the code *)

(** ** [_decode_response] on arbitrary bodies *)

Lemma bytes_split_parts sep s w c :
  In w (bytes_split sep s) -> In c w -> In c s.
Proof.
  standalone.
  revert w. induction s as [|x s IH]; intros w; cbn [bytes_split In].
  - intros [<-|[]] [].
  - destruct (Byte.eqb x sep).
    + intros [<-|Hw] Hc; [destruct Hc|]. right. now apply (IH w).
    + destruct (bytes_split sep s) as [|w0 ws].
      * intros [<-|[]] [->|[]]. now left.
      * intros [<-|Hw] Hc.
        -- destruct Hc as [->|Hc]; [now left|]. right. apply (IH w0); [now left|exact Hc].
        -- right. apply (IH w); [now right|exact Hc].
Qed.

Lemma decode_lines_tabless_all dec lines accum :
  Forall (fun line => ~ In TAB line) lines ->
  decode_lines dec lines accum = Ok accum.
Proof.
  clear py_int encode server.
  intros Hall. induction Hall as [|line lines Hline Hall IH].
  - reflexivity.
  - rewrite decode_lines_tabless by exact Hline. exact IH.
Qed.

(** X1. A body without any tab decodes to the empty mapping, under every
    content type: no record unpacks, so no decoder is ever called. *)
Theorem decode_response_without_tab tsv content_type :
  ~ In TAB tsv -> _decode_response tsv content_type = Ok [].
Proof.
  intros Htab. unfold _decode_response. apply decode_lines_tabless_all.
  apply Forall_forall. intros line Hline Hin. apply Htab.
  exact (bytes_split_parts _ _ _ _ Hline Hin).
Qed.

Lemma decode_lines_key_kinds dec lines accum resp :
  Forall (fun k => match k with
                   | PyStr _ => _decode_keys client = true
                   | PyBytes _ => _decode_keys client = false
                   end) (Dict.keys accum) ->
  decode_lines dec lines accum = Ok resp ->
  Forall (fun k => match k with
                   | PyStr _ => _decode_keys client = true
                   | PyBytes _ => _decode_keys client = false
                   end) (Dict.keys resp).
Proof.
  clear py_int encode server.
  revert accum. induction lines as [|line lines IH]; intros accum Hacc;
    cbn [decode_lines].
  - now intros [= <-].
  - destruct (bytes_split1 TAB line) as [[key value]|]; [|now apply IH].
    destruct (match dec with
              | Some d => (k <- d key ;; v <- d value ;; Ok (k, v))%result
              | None => Ok (key, value)
              end) as [kv|e]; cbn [rbind]; [|discriminate].
    destruct (_decode_keys client) eqn:Hkeys.
    + destruct (decode (fst kv)) as [s|e]; cbn [rmap rbind]; [|discriminate].
      apply IH. rewrite keys_setitem.
      destruct (in_dec eq_dec (PyStr s) (Dict.keys accum)); [exact Hacc|].
      apply Forall_app. split; [exact Hacc|]. now repeat constructor.
    + cbn [rbind]. apply IH. rewrite keys_setitem.
      destruct (in_dec eq_dec (PyBytes (fst kv)) (Dict.keys accum)); [exact Hacc|].
      apply Forall_app. split; [exact Hacc|]. now repeat constructor.
Qed.

(** X2. A decoded frame is a well-formed dictionary of one kind of key: no
    key occurs twice, and every key is text when the client converts keys
    and bytes when it does not. *)
Theorem decode_response_well_formed tsv content_type resp :
  _decode_response tsv content_type = Ok resp ->
  NoDup (Dict.keys resp)
  /\ Forall (fun k => match k with
                      | PyStr _ => _decode_keys client = true
                      | PyBytes _ => _decode_keys client = false
                      end) (Dict.keys resp).
Proof.
  intros Hresp. split.
  - exact (decode_response_NoDup _ _ Hresp).
  - unfold _decode_response in Hresp.
    eapply decode_lines_key_kinds; [|exact Hresp]. constructor.
Qed.

Lemma decode_lines_app dec l1 l2 accum :
  decode_lines dec (l1 ++ l2) accum
  = rbind (decode_lines dec l1 accum) (decode_lines dec l2).
Proof.
  clear py_int encode server.
  revert accum. induction l1 as [|line l1 IH]; intros accum;
    cbn [app decode_lines].
  - reflexivity.
  - destruct (bytes_split1 TAB line) as [[key value]|]; [|apply IH].
    destruct (match dec with
              | Some d => (k <- d key ;; v <- d value ;; Ok (k, v))%result
              | None => Ok (key, value)
              end) as [kv|e]; cbn [rbind]; [|reflexivity].
    destruct (if _decode_keys client
              then rmap PyStr (decode (fst kv))
              else Ok (PyBytes (fst kv))) as [key'|e]; cbn [rbind];
      [apply IH|reflexivity].
Qed.

Lemma bytes_split_nonempty sep s : bytes_split sep s <> [].
Proof.
  standalone.
  destruct s as [|x s]; cbn [bytes_split]; [discriminate|].
  destruct (Byte.eqb x sep); [discriminate|].
  destruct (bytes_split sep s); discriminate.
Qed.

Lemma bytes_split_snoc sep s w :
  ~ In sep w -> bytes_split sep (s ++ sep :: w) = bytes_split sep s ++ [w].
Proof.
  standalone.
  intros Hw. induction s as [|x s IH]; cbn [app bytes_split].
  - rewrite byte_eqb_refl. now rewrite bytes_split_one.
  - destruct (Byte.eqb x sep).
    + now rewrite IH.
    + rewrite IH. pose proof (bytes_split_nonempty sep s) as Hne.
      destruct (bytes_split sep s) as [|w0 ws]; [congruence|reflexivity].
Qed.

(** X3. Appending a record to a body assigns its decoded key in the
    decoded frame: a key that occurs in several records ends up with the
    value of the last one. *)
Theorem decode_response_last_record_wins tsv content_type k v k' v' resp0 :
  _decode_keys client = false ->
  ~ In NL k -> ~ In TAB k -> ~ In NL v ->
  apply_decoder (decode_from_content_type content_type) k = Ok k' ->
  apply_decoder (decode_from_content_type content_type) v = Ok v' ->
  _decode_response tsv content_type = Ok resp0 ->
  _decode_response (tsv ++ NL :: k ++ TAB :: v) content_type
  = Ok (Dict.setitem (PyBytes k') v' resp0)
  /\ Dict.get (PyBytes k') (Dict.setitem (PyBytes k') v' resp0) = Some v'.
Proof.
  clear py_int.
  intros Hkeys Hnk Htk Hnv Hk Hv Hresp0. split; [|apply get_setitem_same].
  unfold _decode_response in *.
  assert (Hline : ~ In NL (k ++ TAB :: v)).
  { intros Hin. apply in_app_or in Hin.
    destruct Hin as [Hin|[E|Hin]]; [tauto|discriminate|tauto]. }
  rewrite bytes_split_snoc by exact Hline.
  rewrite decode_lines_app, Hresp0. cbn [rbind decode_lines].
  rewrite bytes_split1_app by exact Htk.
  destruct (decode_from_content_type content_type) as [d|];
    cbn [apply_decoder] in Hk, Hv.
  - rewrite Hk, Hv. cbn [rbind fst snd]. rewrite Hkeys. reflexivity.
  - injection Hk as <-. injection Hv as <-. cbn [rbind fst snd].
    rewrite Hkeys. reflexivity.
Qed.

(** ** Round trips of both frame encoders *)

(** X4. The key-value frame round trip for any request mapping: decoded
    under [colenc=B] with byte keys, the frame gives back every item as
    encoded key and encoded value, in order, provided no two keys encode to
    the same bytes. *)
Theorem frame_roundtrip_encoded data content_type :
  _decode_keys client = false ->
  endswith content_type "colenc=B" = true ->
  NoDup (map (fun kv => encode (fst kv)) data) ->
  _decode_response (_encode_keys_values data) content_type
  = Ok (map (fun kv => (PyBytes (encode (fst kv)), encode (snd kv))) data).
Proof.
  intros Hkeys Hct Hnd.
  unfold _decode_response, decode_from_content_type. rewrite Hct.
  rewrite encode_keys_values_records.
  destruct data as [|kv data]; [reflexivity|].
  rewrite bytes_split_join.
  - rewrite decode_lines_records by exact Hkeys.
    rewrite (fold_left_through_map
               (fun a kv => Dict.setitem (fst kv) (snd kv) a)
               (fun kv => (PyBytes (encode (fst kv)), encode (snd kv)))).
    apply (f_equal Ok), (fold_setitem_fresh _ []).
    cbn [app]. unfold Dict.keys. rewrite map_map. cbn [fst].
    clear Hkeys Hct. revert Hnd. generalize (kv :: data). clear kv data.
    intros l. induction l as [|x l IH]; cbn [map]; intros Hnd.
    + constructor.
    + inversion Hnd as [|? ? Hx Hnd']; subst. constructor; [|now apply IH].
      intros Hin. apply Hx. apply in_map_iff in Hin.
      destruct Hin as [y [[= E] Hy]]. rewrite <- E.
      apply in_map_iff. now exists y.
  - discriminate.
  - apply Forall_forall. intros w Hw. apply in_map_iff in Hw.
    destruct Hw as [x [<- _]]. apply record_one_line.
Qed.

Lemma bulk_key_record_one_line key : ~ In NL (bulk_key_record key).
Proof.
  unfold bulk_key_record. intros Hin. apply in_app_or in Hin.
  destruct Hin as [Hin|[E|[]]]; [|discriminate].
  revert Hin. apply b64encode_plain. right. now left.
Qed.

Lemma decode_lines_bulk_keys keys accum :
  _decode_keys client = false ->
  decode_lines (Some b64decode) (map bulk_key_record keys) accum
  = Ok (fold_left
          (fun a key => Dict.setitem (PyBytes (UNDERSCORE :: encode key)) [] a)
          keys accum).
Proof.
  clear py_int server.
  intros Hkeys. revert accum.
  induction keys as [|key keys IH]; intros accum; cbn [map decode_lines fold_left].
  - reflexivity.
  - unfold bulk_key_record at 1.
    rewrite bytes_split1_app by (apply b64encode_plain; now left).
    rewrite b64decode_b64encode. cbn [rbind].
    change (b64decode []) with (Ok (@nil byte)). cbn [rbind fst snd].
    rewrite Hkeys. cbn [rbind]. apply IH.
Qed.

(** X5. The bulk-key frame round trip: decoded under [colenc=B] with byte
    keys, the frame of a key list gives one item per key, the key being an
    underscore followed by the encoded key and the value empty; dropping
    the first character of that key gives back the encoded key. *)
Theorem encode_keys_roundtrip keys content_type :
  _decode_keys client = false ->
  endswith content_type "colenc=B" = true ->
  NoDup (map encode keys) ->
  _decode_response (_encode_keys keys) content_type
  = Ok (map (fun key => (PyBytes (UNDERSCORE :: encode key), [])) keys)
  /\ map (fun kv => slice1 (fst kv))
         (map (fun key => (PyBytes (UNDERSCORE :: encode key), @nil byte)) keys)
     = map (fun key => PyBytes (encode key)) keys.
Proof.
  intros Hkeys Hct Hnd. split.
  - unfold _decode_response, decode_from_content_type. rewrite Hct.
    replace (_encode_keys keys) with (bytes_join NL (map bulk_key_record keys)).
    2:{ unfold _encode_keys. f_equal. symmetry.
        exact (fold_left_append bulk_key_record keys []). }
    destruct keys as [|key keys]; [reflexivity|].
    rewrite bytes_split_join.
    + rewrite decode_lines_bulk_keys by exact Hkeys.
      rewrite (fold_left_through_map
                 (fun a kv => Dict.setitem (fst kv) (snd kv) a)
                 (fun key => (PyBytes (UNDERSCORE :: encode key), @nil byte))).
      apply (f_equal Ok), (fold_setitem_fresh _ []).
      cbn [app]. unfold Dict.keys. rewrite map_map. cbn [fst].
      clear Hkeys Hct. revert Hnd. generalize (key :: keys). clear key keys.
      intros l. induction l as [|x l IH]; cbn [map]; intros Hnd.
      * constructor.
      * inversion Hnd as [|? ? Hx Hnd']; subst. constructor; [|now apply IH].
        intros Hin. apply Hx. apply in_map_iff in Hin.
        destruct Hin as [y [[= E] Hy]]. rewrite <- E.
        apply in_map_iff. now exists y.
    + discriminate.
    + apply Forall_forall. intros w Hw. apply in_map_iff in Hw.
      destruct Hw as [x [<- _]]. apply bulk_key_record_one_line.
  - rewrite map_map. reflexivity.
Qed.


(** ** The operations *)

(** Proves that the code after [request] in an operation posts nothing. *)
Ltac no_more_posts :=
  let x := fresh "x" in
  let l := fresh "l" in
  intros x l; destruct x as [? ?]; cbn [fst snd];
  unfold bind, lift, ret, raise;
  repeat match goal with
         | |- context [if ?b then _ else _] => destruct b
         | |- context [let (_, _) := ?p in _] => destruct p
         | |- context [match ?r with Ok _ => _ | Raise _ => _ end] => destruct r
         | |- context [match ?r with (_, _) => _ end] => destruct r
         end;
  reflexivity.

(** X6. Every operation makes exactly one transport call, whether it
    returns or raises, and makes it under the protocol's URL prefix; the
    one exception is [cas] without old and new value, which makes none.
    Nothing is retried. *)
Theorem one_post_per_operation op log :
  exists url body,
    run_posts op log
    = if is_misuse op then log else log ++ [(path url, body)].
Proof.
  destruct op; cbn [run_posts is_misuse];
    try (destruct old_val, new_val);
    try (exists EmptyString, []; reflexivity);
    unfold status, report, clear, play_script, get, set, add, replace, append,
      _simple_write, remove, check, set_bulk, get_bulk, remove_bulk, seize, cas;
    do 2 eexists; apply snd_bind_request; no_more_posts.
Qed.

(** After an accepted status and a body that decodes, [request] hands the
    frame and the status to the rest of the operation. *)
Lemma bind_request_accepted A path_ data db allowed_status
      (k : dict pyobj bytes * Z -> io A) log resp :
  let c := (path (db_path path_ db), request_body data) in
  let r := server log c in
  rejected (status_code r) allowed_status = false ->
  _decode_response (content r) (content_type r) = Ok resp ->
  bind (request path_ data db allowed_status) k log
  = k (resp, status_code r) (log ++ [c]).
Proof.
  intros c r Hacc Hresp. unfold bind. rewrite request_unfold.
  fold c r. now rewrite Hacc, Hresp.
Qed.

Lemma accepted_200_450 s :
  s = 200%Z \/ s = 450%Z -> rejected s (Some [450%Z]) = false.
Proof. standalone. now intros [-> | ->]. Qed.

(** X7. [set], [add], [replace] and [append] post the frame of [key],
    [value] (encoded by the value codec) and, only when an expiry is given,
    [xt]; when the answer's body decodes they return [True] on 200 and
    [False] on 450, whatever the frame holds. *)
Theorem simple_write_outcome cmd key value db expire_time log resp :
  let data := simple_write_data key value expire_time in
  let c := (path (db_path ("/" ++ cmd)%string db), bytes_join NL (map record data)) in
  let r := server log c in
  _decode_response (content r) (content_type r) = Ok resp ->
  status_code r = 200%Z \/ status_code r = 450%Z ->
  _simple_write cmd key value db expire_time log
  = (Ok (negb (status_code r =? 450)%Z), log ++ [c])
  /\ Dict.keys data = PyStr "key" :: PyStr "value" :: present expire_time "xt"
  /\ Dict.get (PyStr "value") data = Some (PyBytes (_encode_value client value)).
Proof.
  intros data c r Hresp Hs. split; [|destruct expire_time; split; reflexivity].
  unfold _simple_write. fold (simple_write_data key value expire_time). fold data.
  subst c r. rewrite <- encode_keys_values_records in *.
  rewrite bind_request_accepted with (resp := resp);
    [reflexivity|now apply accepted_200_450|exact Hresp].
Qed.

(** X8. [remove], [check] and [cas] (given an old or a new value) return
    [True] on 200 and [False] on 450 when the answer's body decodes. *)
Theorem boolean_outcome key db log :
  (forall resp,
      let c := (path (db_path "/remove" db), _encode_keys_values [(PyStr "key", key)]) in
      let r := server log c in
      _decode_response (content r) (content_type r) = Ok resp ->
      status_code r = 200%Z \/ status_code r = 450%Z ->
      remove key db log = (Ok (negb (status_code r =? 450)%Z), log ++ [c]))
  /\ (forall resp,
         let c := (path (db_path "/check" db), _encode_keys_values [(PyStr "key", key)]) in
         let r := server log c in
         _decode_response (content r) (content_type r) = Ok resp ->
         status_code r = 200%Z \/ status_code r = 450%Z ->
         check key db log = (Ok (negb (status_code r =? 450)%Z), log ++ [c]))
  /\ (forall resp old_val new_val expire_time,
         let c := (path (db_path "/cas" db),
                   _encode_keys_values (cas_data key old_val new_val expire_time)) in
         let r := server log c in
         old_val <> None \/ new_val <> None ->
         _decode_response (content r) (content_type r) = Ok resp ->
         status_code r = 200%Z \/ status_code r = 450%Z ->
         cas key old_val new_val db expire_time log
         = (Ok (negb (status_code r =? 450)%Z), log ++ [c])).
Proof.
  split; [|split].
  - intros resp c r Hresp Hs. unfold remove.
    rewrite bind_request_accepted with (resp := resp);
      [reflexivity|now apply accepted_200_450|exact Hresp].
  - intros resp c r Hresp Hs. unfold check.
    rewrite bind_request_accepted with (resp := resp);
      [reflexivity|now apply accepted_200_450|exact Hresp].
  - intros resp old_val new_val expire_time c r Hgiven Hresp Hs.
    assert (Hcas : cas key old_val new_val db expire_time
                   = bind (request "/cas"
                                   (DataDict (cas_data key old_val new_val expire_time))
                                   db (Some [450%Z]))
                          (fun rs => ret (negb (snd rs =? 450)%Z))).
    { destruct old_val, new_val; try reflexivity. destruct Hgiven; congruence. }
    rewrite Hcas.
    rewrite bind_request_accepted with (resp := resp);
      [reflexivity|now apply accepted_200_450|exact Hresp].
Qed.

(** X9. [seize] reads the answer the way [get] does: 450 gives [None]; 200
    gives the decoded [value] field, and a frame without [value] raises
    [KeyError] for that field name. *)
Theorem seize_outcome key db log resp :
  let c := (path (db_path "/seize" db), _encode_keys_values [(PyStr "key", key)]) in
  let r := server log c in
  _decode_response (content r) (content_type r) = Ok resp ->
  (status_code r = 450%Z -> seize key db log = (Ok None, log ++ [c]))
  /\ (status_code r = 200%Z ->
      seize key db log
      = (match Dict.get (field "value") resp with
         | Some value => rmap Some (_decode_value client value)
         | None => Raise (KeyError (field "value"))
         end, log ++ [c])).
Proof.
  intros c r Hresp. split; intros Hs;
    (assert (Hacc : rejected (status_code r) (Some [450%Z]) = false)
      by (rewrite Hs; reflexivity));
    unfold seize;
    rewrite bind_request_accepted with (resp := resp)
      by (first [exact Hacc | exact Hresp]);
    cbn [request_body]; fold c; fold r; rewrite Hs; cbn [snd fst].
  - reflexivity.
  - change (200 =? 450)%Z with false. cbv iota.
    unfold bind, lift, getitem, ret.
    destruct (Dict.get (field "value") resp) as [value|]; [|reflexivity].
    destruct (_decode_value client value); reflexivity.
Qed.

(** X10. [get] on a 200 answer whose frame has no [value] field raises
    [KeyError] for the field name, text or bytes as the client converts
    keys. *)
Theorem get_missing_value key db log resp :
  let c := (path (db_path "/get" db), _encode_keys_values [(PyStr "key", key)]) in
  let r := server log c in
  _decode_response (content r) (content_type r) = Ok resp ->
  status_code r = 200%Z ->
  Dict.get (field "value") resp = None ->
  get key db log = (Raise (KeyError (field "value")), log ++ [c])
  /\ field "value" = (if _decode_keys client then PyStr "value"
                      else PyBytes (bytes_of "value")).
Proof.
  intros c r Hresp Hs Hnone. split; [|reflexivity].
  assert (Hacc : rejected (status_code r) (Some [450%Z]) = false)
    by (rewrite Hs; reflexivity).
  unfold get.
  rewrite bind_request_accepted with (resp := resp)
    by (first [exact Hacc | exact Hresp]).
  cbn [request_body]. fold c. fold r. rewrite Hs. cbn [snd fst].
  change (200 =? 450)%Z with false.
  cbv iota. unfold bind, lift, getitem. now rewrite Hnone.
Qed.

(** X11. [remove_bulk] returns [int] of the [num] field of a 200 answer,
    and raises [KeyError] when the frame has no [num]: unlike [get_bulk],
    it has no default. *)
Theorem remove_bulk_outcome keys db log resp :
  let c := (path (db_path "/remove_bulk" db), _encode_keys keys) in
  let r := server log c in
  status_code r = 200%Z ->
  _decode_response (content r) (content_type r) = Ok resp ->
  remove_bulk keys db log
  = (match Dict.get (field "num") resp with
     | Some n => py_int n
     | None => Raise (KeyError (field "num"))
     end, log ++ [c]).
Proof.
  intros c r Hs Hresp.
  assert (Hacc : rejected (status_code r) None = false)
    by (rewrite Hs; reflexivity).
  unfold remove_bulk.
  rewrite bind_request_accepted with (resp := resp)
    by (first [exact Hacc | exact Hresp]).
  cbn [request_body]. fold c. fold r. cbn [fst]. unfold bind, lift, pop.
  destruct (Dict.get (field "num") resp) as [n|]; [|reflexivity].
  cbn [fst]. destruct (py_int n); reflexivity.
Qed.

(** X12. [clear] never returns [False]: it returns [True] when the status
    is 200 and the body decodes, and raises in every other case.  It posts
    an empty body. *)
Theorem clear_true_or_raises db log :
  let c := (path (db_path "/clear" db), []) in
  let r := server log c in
  snd (clear db log) = log ++ [c]
  /\ (forall b, fst (clear db log) = Ok b -> b = true /\ status_code r = 200%Z)
  /\ (forall resp,
         status_code r = 200%Z ->
         _decode_response (content r) (content_type r) = Ok resp ->
         fst (clear db log) = Ok true).
Proof.
  intros c r.
  assert (Hrun : clear db log
                 = (if rejected (status_code r) None
                    then Raise (protocol_error (status_code r))
                    else rmap (fun _ => (status_code r =? 200)%Z)
                              (_decode_response (content r) (content_type r)),
                    log ++ [c])).
  { unfold clear, bind. rewrite request_unfold. cbn [request_body].
    change (_encode_keys_values []) with (@nil byte). subst c r.
    destruct (rejected _ None); [reflexivity|].
    destruct (_decode_response _ _); reflexivity. }
  rewrite Hrun. cbn [fst snd]. split; [reflexivity|]. split.
  - intros b. unfold rejected. destruct (status_code r =? 200)%Z eqn:E200.
    + apply Z.eqb_eq in E200. cbn [negb andb].
      destruct (_decode_response (content r) (content_type r)); cbn; [|discriminate].
      intros [= <-]. now split.
    + cbn [negb andb]. discriminate.
  - intros resp Hs Hresp. now rewrite Hs, Hresp.
Qed.

(** X13. [status] and [report] post an empty body and return the decoded
    frame of a 200 answer as it is; every other status, 450 included,
    raises the protocol error.  [report] always asks for [DB=None]. *)
Theorem status_report_outcome db log :
  (let c := (path (db_path "/status" db), []) in
   let r := server log c in
   status db log
   = (if (status_code r =? 200)%Z
      then _decode_response (content r) (content_type r)
      else Raise (protocol_error (status_code r)), log ++ [c]))
  /\ (let c := (path "/report?DB=None", []) in
      let r := server log c in
      report log
      = (if (status_code r =? 200)%Z
         then _decode_response (content r) (content_type r)
         else Raise (protocol_error (status_code r)), log ++ [c])).
Proof.
  split; intros c r.
  - unfold status, bind. rewrite request_unfold. cbn [request_body].
    change (_encode_keys_values []) with (@nil byte). subst c r.
    unfold rejected. destruct (status_code _ =? 200)%Z; cbn [negb andb];
      [|reflexivity].
    destruct (_decode_response _ _); reflexivity.
  - unfold report, bind. rewrite request_unfold. cbn [request_body db_path format_db].
    change (_encode_keys_values []) with (@nil byte).
    change ("/report" ++ "?DB=" ++ "None")%string with "/report?DB=None".
    subst c r.
    unfold rejected. destruct (status_code _ =? 200)%Z; cbn [negb andb];
      [|reflexivity].
    destruct (_decode_response _ _); reflexivity.
Qed.


(** ** [play_script] and the response loop *)



Lemma strip_and_decode_app items1 items2 accum :
  strip_and_decode (items1 ++ items2) accum
  = rbind (strip_and_decode items1 accum) (strip_and_decode items2).
Proof.
  clear py_int encode decode server.
  revert accum. induction items1 as [|[k v] items1 IH]; intros accum;
    cbn [app strip_and_decode].
  - reflexivity.
  - destruct (_decode_value client v); cbn [rbind]; [apply IH|reflexivity].
Qed.

(** X15. In the loop that builds the result of [get_bulk] and of
    [play_script], a later field overrides an earlier one whose key is the
    same once the first character is dropped: the result holds the decoded
    value of the last such field. *)
Theorem strip_and_decode_last_wins items k v v' accum result :
  _decode_value client v = Ok v' ->
  strip_and_decode (items ++ [(k, v)]) accum = Ok result ->
  Dict.get (slice1 k) result = Some v'.
Proof.
  intros Hv. rewrite strip_and_decode_app.
  destruct (strip_and_decode items accum) as [acc|e]; cbn [rbind strip_and_decode];
    [|discriminate].
  rewrite Hv. cbn [rbind]. intros [= <-]. apply get_setitem_same.
Qed.

(** X16. [get_bulk] returns no partial result: when the [num] field is
    not ["0"] and a field's value does not decode, the value codec's
    exception is what [get_bulk] raises, if the fields before it decode. *)
Theorem get_bulk_decode_failure keys db log resp n pre k v post vs e :
  let c := (path (db_path "/get_bulk" db), _encode_keys keys) in
  let r := server log c in
  status_code r = 200%Z ->
  _decode_response (content r) (content_type r) = Ok resp ->
  Dict.get (field "num") resp = Some n ->
  n <> bytes_of "0" ->
  Dict.delitem (field "num") resp = pre ++ (k, v) :: post ->
  Forall2 (fun kv v => _decode_value client (snd kv) = Ok v) pre vs ->
  _decode_value client v = Raise e ->
  get_bulk keys db log = (Raise e, log ++ [c]).
Proof.
  intros c r Hs Hresp Hnum Hn Hrest Hpre Hv.
  assert (Hacc : rejected (status_code r) None = false)
    by (rewrite Hs; reflexivity).
  unfold get_bulk.
  rewrite bind_request_accepted with (resp := resp)
    by (first [exact Hacc | exact Hresp]).
  cbn [request_body fst]. fold c. unfold Dict.pop_default. rewrite Hnum, Hrest.
  destruct (eq_dec n (bytes_of "0")); [contradiction|].
  unfold lift. rewrite strip_and_decode_app.
  rewrite (strip_and_decode_assigns _ Hpre). cbn [rbind strip_and_decode].
  now rewrite Hv.
Qed.

(** ** [open] and [close] *)

(** X17. [open] returns [True] exactly when the protocol had no session,
    and then the new session carries the base64 content type; [close]
    returns [True] exactly when there was a session.  Each is idempotent:
    a second [open] or [close] returns [False] and changes nothing; and
    [close] undoes [open]. *)
Theorem open_close_lifecycle (s : option Session) :
  (fst (open s) = true <-> s = None)
  /\ (s = None ->
      snd (open s) = Some {| content_type_header := "text/tab-separated-values; colenc=B" |})
  /\ (s <> None -> snd (open s) = s)
  /\ open (snd (open s)) = (false, snd (open s))
  /\ (fst (close s) = true <-> s <> None)
  /\ snd (close s) = None
  /\ close (snd (close s)) = (false, None)
  /\ close (snd (open s)) = (true, None).
Proof.
  standalone.
  destruct s as [sess|]; cbn; repeat split;
    try congruence; try discriminate; try reflexivity; intros; congruence.
Qed.


(** ** Errors inside [_decode_response] *)

Lemma bytes_split_prefix sep a s :
  ~ In sep a ->
  bytes_split sep (a ++ s)
  = match bytes_split sep s with
    | w :: ws => (a ++ w) :: ws
    | [] => [a]
    end.
Proof.
  standalone.
  induction a as [|x a IH]; intros Ha; cbn [app].
  - pose proof (bytes_split_nonempty sep s) as Hne.
    destruct (bytes_split sep s); [congruence|reflexivity].
  - cbn [bytes_split].
    rewrite byte_eqb_neq by (intros ->; apply Ha; now left).
    rewrite IH by (intros Hin; apply Ha; now right).
    destruct (bytes_split sep s); reflexivity.
Qed.

(** X18. No error of a field decoder is caught: when the decoder chosen
    by the content type raises on the key of the first record of a body,
    [_decode_response] raises that exception, whatever follows. *)
Theorem decode_response_key_error content_type k rest e :
  ~ In NL k -> ~ In TAB k ->
  apply_decoder (decode_from_content_type content_type) k = Raise e ->
  _decode_response (k ++ TAB :: rest) content_type = Raise e.
Proof.
  clear py_int encode server.
  intros Hnk Htk Hk. unfold _decode_response.
  rewrite bytes_split_prefix by exact Hnk. cbn [bytes_split].
  change (Byte.eqb TAB NL) with false. cbv iota.
  pose proof (bytes_split_nonempty NL rest) as Hne.
  destruct (bytes_split NL rest) as [|w ws]; [congruence|].
  cbn [decode_lines]. rewrite bytes_split1_app by exact Htk.
  destruct (decode_from_content_type content_type) as [d|];
    cbn [apply_decoder] in Hk; [|discriminate].
  now rewrite Hk.
Qed.

(** ** Text keys *)

Lemma decode_lines_text_records data accum :
  _decode_keys client = true ->
  (forall s, decode (encode (PyStr s)) = Ok s) ->
  decode_lines (Some b64decode)
               (map record (map (fun kv => (PyStr (fst kv), snd kv)) data)) accum
  = Ok (fold_left
          (fun a kv => Dict.setitem (PyStr (fst kv)) (encode (snd kv)) a)
          data accum).
Proof.
  clear py_int server.
  intros Hkeys Htext. revert accum.
  induction data as [|[k v] data IH]; intros accum; cbn [map decode_lines fold_left].
  - reflexivity.
  - rewrite record_unpacks, !b64decode_b64encode. cbn [rbind fst snd].
    rewrite Hkeys, Htext. cbn [rmap rbind]. apply IH.
Qed.

(** X19. The frame round trip when the client converts keys to text: a
    mapping with text keys, encoded and then decoded under [colenc=B],
    comes back with the same text keys, in order, each with its encoded
    value, provided [decode] inverts [encode] on text. *)
Theorem frame_roundtrip_text (data : dict string pyobj) content_type :
  _decode_keys client = true ->
  (forall s, decode (encode (PyStr s)) = Ok s) ->
  endswith content_type "colenc=B" = true ->
  NoDup (Dict.keys data) ->
  _decode_response
    (_encode_keys_values (map (fun kv => (PyStr (fst kv), snd kv)) data))
    content_type
  = Ok (map (fun kv => (PyStr (fst kv), encode (snd kv))) data).
Proof.
  intros Hkeys Htext Hct Hnd.
  unfold _decode_response, decode_from_content_type. rewrite Hct.
  rewrite encode_keys_values_records.
  destruct data as [|kv data]; [reflexivity|].
  rewrite bytes_split_join.
  - rewrite decode_lines_text_records by assumption.
    rewrite (fold_left_through_map
               (fun a kv => Dict.setitem (fst kv) (snd kv) a)
               (fun kv => (PyStr (fst kv), encode (snd kv)))).
    apply (f_equal Ok), (fold_setitem_fresh _ []).
    cbn [app]. unfold Dict.keys in *. rewrite map_map. cbn [fst].
    revert Hnd. generalize (kv :: data). clear kv data.
    intros l. induction l as [|x l IH]; cbn [map]; intros Hnd.
    + constructor.
    + inversion Hnd as [|? ? Hx Hnd']; subst. constructor; [|now apply IH].
      intros Hin. apply Hx. apply in_map_iff in Hin.
      destruct Hin as [y [[= E] Hy]]. rewrite <- E.
      apply in_map_iff. now exists y.
  - discriminate.
  - apply Forall_forall. intros w Hw. apply in_map_iff in Hw.
    destruct Hw as [x [<- _]]. apply record_one_line.
Qed.

(** ** [set_bulk] without an expiry, and the protocol error *)

(** X20. [set_bulk] without an expiry sends no [xt] field: the request
    mapping is one underscore-prefixed, value-encoded item per data item,
    in order, and for the empty mapping the posted body is empty. *)
Theorem set_bulk_without_expiry data db log :
  NoDup (Dict.keys data) ->
  set_bulk_data data None = map bulk_item data
  /\ Dict.get (PyStr "xt") (set_bulk_data data None) = None
  /\ snd (set_bulk data db None log)
     = log ++ [(path (db_path "/set_bulk" db),
                bytes_join NL (map record (map bulk_item data)))]
  /\ (data = [] ->
      snd (set_bulk data db None log) = log ++ [(path (db_path "/set_bulk" db), [])]).
Proof.
  intros Hnd.
  assert (Hdata : set_bulk_data data None = map bulk_item data).
  { unfold set_bulk_data. apply (prefix_and_encode_fresh data []).
    cbn [app]. now apply bulk_item_keys_NoDup. }
  assert (Hpost : snd (set_bulk data db None log)
                  = log ++ [(path (db_path "/set_bulk" db),
                             bytes_join NL (map record (map bulk_item data)))]).
  { unfold set_bulk. rewrite snd_bind_request by reflexivity.
    cbn [request_body]. now rewrite Hdata, encode_keys_values_records. }
  split; [exact Hdata|]. split; [|split; [exact Hpost|]].
  - rewrite Hdata. apply get_None_iff. unfold Dict.keys. rewrite map_map.
    intros Hin. apply in_map_iff in Hin. destruct Hin as [[k v] [E _]].
    cbn in E. discriminate E.
  - intros ->. exact Hpost.
Qed.

Lemma string_app_inv_tail (s t : string) (c : ascii) :
  (s ++ String c EmptyString)%string = (t ++ String c EmptyString)%string -> s = t.
Proof.
  standalone.
  revert t. induction s as [|x s IH]; intros [|y t]; cbn [String.append].
  - reflexivity.
  - intros [= -> E]. destruct t; discriminate E.
  - intros [= -> E]. destruct s; discriminate E.
  - intros [= -> E]. f_equal. now apply IH.
Qed.

(** X21. The protocol error carries the status code: two statuses give the
    same exception only if they are the same number, so the code can be
    read back from the exception. *)
Theorem protocol_error_carries_code s1 s2 :
  protocol_error s1 = protocol_error s2 -> s1 = s2.
Proof.
  standalone.
  unfold protocol_error. intros [= E].
  apply string_app_inv_tail in E.
  pose proof (str_of_int_decimal s1) as H1.
  pose proof (str_of_int_decimal s2) as H2.
  rewrite E in H1. congruence.
Qed.

End HttpProtocol.

(** * Worked examples *)

Local Open Scope string_scope.
Local Open Scope list_scope.

Lemma frame_roundtrip_witness :
  (forall b, encode_ascii (PyBytes b) = b)
  /\ _decode_keys binary_client = false
  /\ NoDup (Dict.keys sample_mapping)
  /\ endswith tsv_base64 "colenc=B" = true
  /\ _decode_response decode_ascii binary_client
       (_encode_keys_values encode_ascii (as_data sample_mapping)) tsv_base64
     = Ok (as_frame sample_mapping)
  /\ _decode_response decode_ascii binary_client
       (_encode_keys_values encode_ascii (as_data [])) tsv_base64
     = Ok (as_frame []).
Proof.
  assert (Hnd : NoDup (Dict.keys sample_mapping)).
  { repeat constructor; cbn; intuition discriminate. }
  split; [intros b; reflexivity|].
  split; [reflexivity|]. split; [exact Hnd|]. split; [reflexivity|].
  split.
  - apply (frame_roundtrip encode_ascii decode_ascii binary_client
                           sample_mapping tsv_base64);
      [reflexivity | reflexivity | exact Hnd | reflexivity].
  - apply (frame_roundtrip encode_ascii decode_ascii binary_client [] tsv_base64);
      [reflexivity | reflexivity | constructor | reflexivity].
Defined.

(** [request] and the operations under a 500 and under a 450 answer. *)
Lemma request_status_policy_witness :
  request encode_ascii decode_ascii binary_client (answering r500)
          "/get" (DataDict [(PyStr "key", PyStr "k1")]) DbNone (Some [450%Z]) []
  = (Raise (protocol_error 500),
     [("http://127.0.0.1:1978/rpc/get?DB=None", bytes_of "a2V5" ++ TAB :: bytes_of "azE=")])
  /\ request encode_ascii decode_ascii binary_client (answering r450)
             "/get" (DataDict [(PyStr "key", PyStr "k1")]) DbNone (Some [450%Z]) []
     = (Ok ([(PyBytes (bytes_of "ERROR"), bytes_of "DB: 7: no record")], 450%Z),
        [("http://127.0.0.1:1978/rpc/get?DB=None", bytes_of "a2V5" ++ TAB :: bytes_of "azE=")])
  /\ run_raised encode_ascii decode_ascii int_decimal binary_client (answering r500)
                (OpGetBulk bytes [PyStr "k1"] DbNone) []
     = Some (protocol_error 500)
  /\ run_raised encode_ascii decode_ascii int_decimal binary_client (answering r450)
                (OpSeize bytes (PyStr "k1") DbNone) []
     = None.
Proof.
  pose proof (request_status_policy
                encode_ascii decode_ascii int_decimal binary_client
                (answering r500) "/get" (DataDict [(PyStr "key", PyStr "k1")])
                DbNone (Some [450%Z]) []) as H500.
  pose proof (request_status_policy
                encode_ascii decode_ascii int_decimal binary_client
                (answering r450) "/get" (DataDict [(PyStr "key", PyStr "k1")])
                DbNone (Some [450%Z]) []) as H450.
  cbv zeta in H500, H450.
  destruct H500 as [Hraise [_ [Hop _]]]. destruct H450 as [_ [Hok [_ Hop450]]].
  split; [|split; [|split]].
  - apply Hraise; [discriminate|]. cbn. intros [E|[]]. discriminate E.
  - apply Hok. right. exists [450%Z]. split; [reflexivity|now left].
  - apply Hop; [reflexivity| |reflexivity].
    cbn. intros [E|[]]. discriminate E.
  - apply Hop450; [reflexivity| |now left|reflexivity].
    intros h c. eexists. reflexivity.
Defined.

(** C2, refuted as stated.  Status 450 is in the acceptable set of [get]
    and of [check], yet [request] and the operations raise: the body is
    decoded after the status check, and these fields are not base64. *)
Lemma request_450_raises :
  In (status_code r450_undecodable) [450%Z]
  /\ fst (request encode_ascii decode_ascii binary_client
                  (answering r450_undecodable)
                  "/check" (DataDict [(PyStr "key", PyStr "k1")]) DbNone
                  (Some [450%Z]) [])
     = Raise binascii_Error
  /\ run_raised encode_ascii decode_ascii int_decimal binary_client
                (answering r450_undecodable)
                (OpCheck bytes (PyStr "k1") DbNone) []
     = Some binascii_Error.
Proof. split; [now left|]. split; reflexivity. Qed.

(** C3.  [set_bulk] evaluated on a server that reports one record
    written: the result is the decoded frame, with [num] still in it as
    text, where [remove_bulk] on the same answer gives the integer. *)
Theorem set_bulk_returns_frame_not_count :
  fst (set_bulk encode_ascii decode_ascii binary_client (answering r200_num1)
                [("k1", bytes_of "v1")] (DbInt 0) None [])
  = Ok [(PyBytes (bytes_of "num"), bytes_of "1")]
  /\ fst (remove_bulk encode_ascii decode_ascii int_decimal binary_client
                      (answering r200_num1) [PyStr "k1"] (DbInt 0) [])
     = Ok 1%Z.
Proof.
  split.
  - rewrite set_bulk_returns_frame. reflexivity.
  - reflexivity.
Qed.

Lemma post_db_selector_witness :
  db_path "/get" (DbInt 2) = "/get?DB=2"
  /\ db_path "/play_script" DbFalse = "/play_script"
  /\ snd (_post binary_client (answering r500) "/get" [] (DbInt 2) [])
     = [("http://127.0.0.1:1978/rpc/get?DB=2", [])].
Proof.
  destruct (post_db_selector binary_client (answering r500) "/get" [] (DbInt 2) [])
    as [Hpost [_ [Hdb _]]].
  destruct (post_db_selector binary_client (answering r500) "/play_script" []
                             DbFalse [])
    as [_ [[_ Hfalse] _]].
  split; [|split].
  - rewrite Hdb by discriminate. reflexivity.
  - apply Hfalse. reflexivity.
  - rewrite Hpost. reflexivity.
Defined.

(** C4, refuted as stated.  With the selector left out ([db=None], the
    default of [status] and of [request], and what [report] passes), the
    path still gets a [DB] parameter. *)
Lemma omitted_db_is_appended :
  snd (status encode_ascii decode_ascii binary_client (answering r200_value)
              DbNone [])
  = [("http://127.0.0.1:1978/rpc/status?DB=None", [])]
  /\ snd (report encode_ascii decode_ascii binary_client (answering r200_value) [])
     = [("http://127.0.0.1:1978/rpc/report?DB=None", [])].
Proof. split; reflexivity. Qed.

Lemma get_outcome_witness :
  get encode_ascii decode_ascii binary_client (answering r450) (PyStr "k1") DbNone []
  = (Ok None,
     [("http://127.0.0.1:1978/rpc/get?DB=None", bytes_of "a2V5" ++ TAB :: bytes_of "azE=")])
  /\ fst (get encode_ascii decode_ascii binary_client (answering r200_value)
              (PyStr "k1") DbNone [])
     = Ok (Some (bytes_of "v1")).
Proof.
  destruct (get_outcome encode_ascii decode_ascii binary_client (answering r450)
                        (PyStr "k1") DbNone []) as [H450 _].
  destruct (get_outcome encode_ascii decode_ascii binary_client
                        (answering r200_value) (PyStr "k1") DbNone [])
    as [_ [H200 _]].
  split.
  - apply (H450 [(PyBytes (bytes_of "ERROR"), bytes_of "DB: 7: no record")]);
      reflexivity.
  - rewrite (H200 [(PyBytes (bytes_of "value"), bytes_of "v1")] (bytes_of "v1"));
      reflexivity.
Defined.

(** C7, refuted as stated.  The status is 450, and [get] raises: the
    content type announces base64 and the fields are not. *)
Lemma get_450_raises :
  status_code r450_undecodable = 450%Z
  /\ fst (get encode_ascii decode_ascii binary_client (answering r450_undecodable)
              (PyStr "k1") DbNone [])
     = Raise binascii_Error.
Proof. split; reflexivity. Qed.


(** One well-formed record and one record without a tab, under base64:
    only the well-formed record is in the result. *)
Example decode_response_skips_tabless :
  _decode_response decode_ascii binary_client
                   (bytes_of "a2V5" ++ TAB :: bytes_of "dmFsdWU=" ++ NL
                    :: bytes_of "broken") tsv_base64
  = Ok [(PyBytes (bytes_of "key"), bytes_of "value")].
Proof. reflexivity. Qed.

(** C8.  [_decode_response] evaluated under a content type that ends in
    [colenc=U]: the first record that has a tab makes the chosen decoder
    raise [TypeError], where [unquote_to_bytes] alone would unescape the
    field. *)
Theorem decode_response_colenc_U_raises :
  _decode_response decode_ascii binary_client
                   (bytes_of "a%20b" ++ TAB :: bytes_of "c") tsv_url
  = Raise (TypeError "unquote_to_bytes() got an unexpected keyword argument 'safe'")
  /\ Url.unquote_to_bytes (bytes_of "a%20b") = bytes_of "a b".
Proof.
  split; [|reflexivity].
  apply decode_response_colenc_U.
  - reflexivity.
  - reflexivity.
  - apply in_or_app. right. now left.
Qed.

Lemma set_bulk_frame_witness :
  set_bulk_data binary_client [("k1", bytes_of "v1"); ("k2", bytes_of "v2")] (Some 60%Z)
  = [(PyStr "xt", PyStr "60");
     (PyStr "_k1", PyBytes (bytes_of "v1"));
     (PyStr "_k2", PyBytes (bytes_of "v2"))]
  /\ snd (set_bulk encode_ascii decode_ascii binary_client (answering r200_num1)
                   [("k1", bytes_of "v1"); ("k2", bytes_of "v2")] (DbInt 0)
                   (Some 60%Z) [])
     = [("http://127.0.0.1:1978/rpc/set_bulk?DB=0",
         bytes_of "eHQ=" ++ TAB :: bytes_of "NjA=" ++ NL
         :: bytes_of "X2sx" ++ TAB :: bytes_of "djE=" ++ NL
         :: bytes_of "X2sy" ++ TAB :: bytes_of "djI=")].
Proof.
  assert (Hnd : NoDup (Dict.keys [("k1", bytes_of "v1"); ("k2", bytes_of "v2")])).
  { repeat constructor; cbn; intuition discriminate. }
  destruct (set_bulk_frame encode_ascii decode_ascii binary_client
                           (answering r200_num1)
                           [("k1", bytes_of "v1"); ("k2", bytes_of "v2")]
                           (DbInt 0) 60 [] Hnd)
    as [Hdata [Hpost _]].
  split.
  - rewrite Hdata. reflexivity.
  - rewrite Hpost. reflexivity.
Defined.

(** * Worked examples for the further properties *)

Lemma decode_response_without_tab_witness :
  _decode_response decode_ascii binary_client (bytes_of "ERROR") tsv_url = Ok []
  /\ _decode_response decode_ascii binary_client [] tsv_base64 = Ok [].
Proof.
  split.
  - apply (decode_response_without_tab decode_ascii binary_client).
    cbn. intuition discriminate.
  - apply (decode_response_without_tab decode_ascii binary_client). intros [].
Defined.

Lemma decode_response_well_formed_witness :
  NoDup (Dict.keys [(PyStr "num", bytes_of "2"); (PyStr "_k1", bytes_of "v1")])
  /\ Forall (fun k => match k with
                      | PyStr _ => _decode_keys text_client = true
                      | PyBytes _ => _decode_keys text_client = false
                      end)
            (Dict.keys [(PyStr "num", bytes_of "2"); (PyStr "_k1", bytes_of "v1")]).
Proof.
  apply (decode_response_well_formed
           decode_ascii text_client
           (bytes_of "num" ++ TAB :: bytes_of "2" ++ NL
            :: bytes_of "_k1" ++ TAB :: bytes_of "v1" ++ NL
            :: bytes_of "num" ++ TAB :: bytes_of "2")
           tsv_raw).
  reflexivity.
Defined.

Lemma decode_response_last_record_wins_witness :
  _decode_response decode_ascii binary_client
                   ((bytes_of "azE=" ++ TAB :: bytes_of "djE=")
                      ++ NL :: bytes_of "azE=" ++ TAB :: bytes_of "djI=")
                   tsv_base64
  = Ok [(PyBytes (bytes_of "k1"), bytes_of "v2")].
Proof.
  assert (Hnk : ~ In NL (bytes_of "azE=")) by (cbn; intuition discriminate).
  assert (Htk : ~ In TAB (bytes_of "azE=")) by (cbn; intuition discriminate).
  assert (Hv : ~ In NL (bytes_of "djI=")) by (cbn; intuition discriminate).
  destruct (decode_response_last_record_wins
              decode_ascii binary_client
              (bytes_of "azE=" ++ TAB :: bytes_of "djE=") tsv_base64
              (bytes_of "azE=") (bytes_of "djI=")
              (k' := bytes_of "k1") (v' := bytes_of "v2")
              (resp0 := [(PyBytes (bytes_of "k1"), bytes_of "v1")])
              eq_refl Hnk Htk Hv eq_refl eq_refl eq_refl)
    as [Hrun _].
  exact Hrun.
Defined.

Lemma frame_roundtrip_encoded_witness :
  _decode_response decode_ascii binary_client
    (_encode_keys_values encode_ascii
       [(PyStr "key", PyBytes (bytes_of "k1")); (PyStr "xt", PyStr "60")])
    tsv_base64
  = Ok [(PyBytes (bytes_of "key"), bytes_of "k1");
        (PyBytes (bytes_of "xt"), bytes_of "60")].
Proof.
  apply (frame_roundtrip_encoded
           encode_ascii decode_ascii binary_client
           [(PyStr "key", PyBytes (bytes_of "k1")); (PyStr "xt", PyStr "60")]
           tsv_base64); [reflexivity|reflexivity|].
  repeat constructor; cbn; intuition discriminate.
Defined.

Lemma encode_keys_roundtrip_witness :
  _decode_response decode_ascii binary_client
    (_encode_keys encode_ascii [PyStr "k1"; PyBytes (bytes_of "k2")]) tsv_base64
  = Ok [(PyBytes (bytes_of "_k1"), []); (PyBytes (bytes_of "_k2"), [])].
Proof.
  assert (Hnd : NoDup (map encode_ascii [PyStr "k1"; PyBytes (bytes_of "k2")]))
    by (repeat constructor; cbn; intuition discriminate).
  destruct (encode_keys_roundtrip
              encode_ascii decode_ascii binary_client
              [PyStr "k1"; PyBytes (bytes_of "k2")] tsv_base64
              eq_refl eq_refl Hnd) as [Hrun _].
  exact Hrun.
Defined.

Lemma simple_write_outcome_witness :
  fst (add encode_ascii decode_ascii binary_client (answering r450)
           (PyStr "k1") (bytes_of "v1") DbNone (Some 60%Z) [])
  = Ok false
  /\ fst (set encode_ascii decode_ascii binary_client (answering r200_empty)
              (PyStr "k1") (bytes_of "v1") DbNone None [])
     = Ok true.
Proof.
  split.
  - destruct (simple_write_outcome
                encode_ascii decode_ascii binary_client (answering r450)
                "add" (PyStr "k1") (bytes_of "v1") DbNone (Some 60%Z) []
                (resp := [(PyBytes (bytes_of "ERROR"), bytes_of "DB: 7: no record")])
                eq_refl (or_intror eq_refl)) as [Hrun _].
    unfold add. rewrite Hrun. reflexivity.
  - destruct (simple_write_outcome
                encode_ascii decode_ascii binary_client (answering r200_empty)
                "set" (PyStr "k1") (bytes_of "v1") DbNone None []
                (resp := []) eq_refl (or_introl eq_refl)) as [Hrun _].
    unfold set. rewrite Hrun. reflexivity.
Defined.

Lemma boolean_outcome_witness :
  fst (remove encode_ascii decode_ascii binary_client (answering r450)
              (PyStr "k1") DbNone [])
  = Ok false
  /\ fst (check encode_ascii decode_ascii binary_client (answering r200_empty)
                (PyStr "k1") DbNone [])
     = Ok true
  /\ fst (cas encode_ascii decode_ascii binary_client (answering r450)
              (PyStr "k1") (Some (bytes_of "old")) None DbNone None [])
     = Ok false.
Proof.
  destruct (boolean_outcome encode_ascii decode_ascii binary_client
                            (answering r450) (PyStr "k1") DbNone [])
    as [Hremove [_ Hcas]].
  destruct (boolean_outcome encode_ascii decode_ascii binary_client
                            (answering r200_empty) (PyStr "k1") DbNone [])
    as [_ [Hcheck _]].
  split; [|split].
  - rewrite (Hremove [(PyBytes (bytes_of "ERROR"), bytes_of "DB: 7: no record")]
                     eq_refl (or_intror eq_refl)).
    reflexivity.
  - rewrite (Hcheck [] eq_refl (or_introl eq_refl)). reflexivity.
  - rewrite (Hcas [(PyBytes (bytes_of "ERROR"), bytes_of "DB: 7: no record")]
                  (Some (bytes_of "old")) None None);
      [reflexivity|left; discriminate|reflexivity|now right].
Defined.

Lemma seize_outcome_witness :
  fst (seize encode_ascii decode_ascii binary_client (answering r450)
             (PyStr "k1") DbNone [])
  = Ok None
  /\ fst (seize encode_ascii decode_ascii binary_client (answering r200_value)
                (PyStr "k1") DbNone [])
     = Ok (Some (bytes_of "v1"))
  /\ fst (seize encode_ascii decode_ascii binary_client (answering r200_num1)
                (PyStr "k1") DbNone [])
     = Raise (KeyError (PyBytes (bytes_of "value"))).
Proof.
  split; [|split].
  - destruct (seize_outcome
                encode_ascii decode_ascii binary_client (answering r450)
                (PyStr "k1") DbNone []
                (resp := [(PyBytes (bytes_of "ERROR"), bytes_of "DB: 7: no record")])
                eq_refl) as [H450 _].
    rewrite (H450 eq_refl). reflexivity.
  - destruct (seize_outcome
                encode_ascii decode_ascii binary_client (answering r200_value)
                (PyStr "k1") DbNone []
                (resp := [(PyBytes (bytes_of "value"), bytes_of "v1")])
                eq_refl) as [_ H200].
    rewrite (H200 eq_refl). reflexivity.
  - destruct (seize_outcome
                encode_ascii decode_ascii binary_client (answering r200_num1)
                (PyStr "k1") DbNone []
                (resp := [(PyBytes (bytes_of "num"), bytes_of "1")])
                eq_refl) as [_ H200].
    rewrite (H200 eq_refl). reflexivity.
Defined.

Lemma get_missing_value_witness :
  fst (get encode_ascii decode_ascii binary_client (answering r200_num1)
           (PyStr "k1") DbNone [])
  = Raise (KeyError (PyBytes (bytes_of "value")))
  /\ fst (get encode_ascii decode_ascii text_client (answering r200_num1)
              (PyStr "k1") DbNone [])
     = Raise (KeyError (PyStr "value")).
Proof.
  split.
  - destruct (get_missing_value
                encode_ascii decode_ascii binary_client (answering r200_num1)
                (PyStr "k1") DbNone []
                (resp := [(PyBytes (bytes_of "num"), bytes_of "1")])
                eq_refl eq_refl eq_refl) as [Hrun _].
    rewrite Hrun. reflexivity.
  - destruct (get_missing_value
                encode_ascii decode_ascii text_client (answering r200_num1)
                (PyStr "k1") DbNone []
                (resp := [(PyStr "num", bytes_of "1")])
                eq_refl eq_refl eq_refl) as [Hrun _].
    rewrite Hrun. reflexivity.
Defined.

Lemma remove_bulk_outcome_witness :
  fst (remove_bulk encode_ascii decode_ascii int_decimal binary_client
                   (answering r200_bulk) [PyStr "k1"; PyStr "k2"] DbNone [])
  = Ok 2%Z
  /\ fst (remove_bulk encode_ascii decode_ascii int_decimal binary_client
                      (answering r200_value) [PyStr "k1"] DbNone [])
     = Raise (KeyError (PyBytes (bytes_of "num"))).
Proof.
  split.
  - rewrite (remove_bulk_outcome
               encode_ascii decode_ascii int_decimal binary_client
               (answering r200_bulk) [PyStr "k1"; PyStr "k2"] DbNone []
               (resp := [(PyBytes (bytes_of "num"), bytes_of "2");
                         (PyBytes (bytes_of "_k1"), bytes_of "v1");
                         (PyBytes (bytes_of "_k2"), bytes_of "v2")])
               eq_refl eq_refl).
    reflexivity.
  - rewrite (remove_bulk_outcome
               encode_ascii decode_ascii int_decimal binary_client
               (answering r200_value) [PyStr "k1"] DbNone []
               (resp := [(PyBytes (bytes_of "value"), bytes_of "v1")])
               eq_refl eq_refl).
    reflexivity.
Defined.

Lemma clear_true_or_raises_witness :
  fst (clear encode_ascii decode_ascii binary_client (answering r200_empty) DbNone [])
  = Ok true
  /\ fst (clear encode_ascii decode_ascii binary_client (answering r450) DbNone [])
     = Raise (protocol_error 450).
Proof.
  split.
  - destruct (clear_true_or_raises
                encode_ascii decode_ascii binary_client (answering r200_empty)
                DbNone []) as [_ [_ Htrue]].
    apply (Htrue []); reflexivity.
  - reflexivity.
Defined.


Lemma strip_and_decode_last_wins_witness :
  Dict.get (PyBytes (bytes_of "a")) [(PyBytes (bytes_of "a"), bytes_of "2")]
  = Some (bytes_of "2").
Proof.
  apply (strip_and_decode_last_wins
           binary_client [(PyBytes (bytes_of "_a"), bytes_of "1")]
           (PyBytes (bytes_of "xa")) (bytes_of "2") []
           (v' := bytes_of "2")
           (result := [(PyBytes (bytes_of "a"), bytes_of "2")]));
    reflexivity.
Defined.

Lemma get_bulk_decode_failure_witness :
  fst (get_bulk encode_ascii decode_ascii strict_client
                (answering r200_bulk_empty_value)
                [PyStr "k1"; PyStr "k2"] DbNone [])
  = Raise (CodecError "empty value").
Proof.
  rewrite (get_bulk_decode_failure
             encode_ascii decode_ascii strict_client
             (answering r200_bulk_empty_value) [PyStr "k1"; PyStr "k2"] DbNone []
             (PyBytes (bytes_of "_k2")) [] []
             (resp := [(PyBytes (bytes_of "num"), bytes_of "2");
                       (PyBytes (bytes_of "_k1"), bytes_of "v1");
                       (PyBytes (bytes_of "_k2"), [])])
             (n := bytes_of "2")
             (pre := [(PyBytes (bytes_of "_k1"), bytes_of "v1")])
             (vs := [bytes_of "v1"]) (e := CodecError "empty value")).
  - reflexivity.
  - reflexivity.
  - reflexivity.
  - reflexivity.
  - discriminate.
  - reflexivity.
  - repeat constructor.
  - reflexivity.
Defined.

Lemma open_close_lifecycle_witness :
  snd (open None)
  = Some {| content_type_header := "text/tab-separated-values; colenc=B" |}
  /\ fst (close (Some {| content_type_header := "x" |})) = true.
Proof.
  destruct (open_close_lifecycle None) as [_ [Hopen _]].
  destruct (open_close_lifecycle (Some {| content_type_header := "x" |}))
    as [_ [_ [_ [_ [Hclose _]]]]].
  split.
  - now apply Hopen.
  - apply Hclose. discriminate.
Defined.

Lemma decode_response_key_error_witness :
  _decode_response decode_ascii binary_client
                   (bytes_of "ERROR" ++ TAB :: bytes_of "DB: 7: no record")
                   tsv_base64
  = Raise binascii_Error.
Proof.
  apply (decode_response_key_error decode_ascii binary_client tsv_base64
                                   (bytes_of "ERROR")).
  - cbn. intuition discriminate.
  - cbn. intuition discriminate.
  - reflexivity.
Defined.

Lemma frame_roundtrip_text_witness :
  _decode_response decode_ascii text_client
    (_encode_keys_values encode_ascii
       (map (fun kv => (PyStr (fst kv), snd kv))
            [("value", PyBytes (bytes_of "v1")); ("xt", PyStr "60")]))
    tsv_base64
  = Ok [(PyStr "value", bytes_of "v1"); (PyStr "xt", bytes_of "60")].
Proof.
  apply (frame_roundtrip_text
           encode_ascii decode_ascii text_client
           [("value", PyBytes (bytes_of "v1")); ("xt", PyStr "60")] tsv_base64).
  - reflexivity.
  - intros s. unfold decode_ascii, encode_ascii, bytes_of.
    now rewrite string_of_list_byte_of_string.
  - reflexivity.
  - repeat constructor; cbn; intuition discriminate.
Defined.

Lemma set_bulk_without_expiry_witness :
  set_bulk_data binary_client [("k1", bytes_of "v1"); ("k2", bytes_of "v2")] None
  = [(PyStr "_k1", PyBytes (bytes_of "v1")); (PyStr "_k2", PyBytes (bytes_of "v2"))]
  /\ snd (set_bulk encode_ascii decode_ascii binary_client (answering r200_num1)
                   [] (DbInt 0) None [])
     = [("http://127.0.0.1:1978/rpc/set_bulk?DB=0", [])].
Proof.
  assert (Hnd : NoDup (Dict.keys [("k1", bytes_of "v1"); ("k2", bytes_of "v2")]))
    by (repeat constructor; cbn; intuition discriminate).
  assert (Hnil : NoDup (Dict.keys (@nil (string * bytes)))) by constructor.
  destruct (set_bulk_without_expiry
              encode_ascii decode_ascii binary_client (answering r200_num1)
              [("k1", bytes_of "v1"); ("k2", bytes_of "v2")]
              (DbInt 0) [] Hnd) as [Hdata _].
  destruct (set_bulk_without_expiry
              encode_ascii decode_ascii binary_client (answering r200_num1)
              [] (DbInt 0) [] Hnil) as [_ [_ [_ Hempty]]].
  split.
  - rewrite Hdata. reflexivity.
  - rewrite (Hempty eq_refl). reflexivity.
Defined.

Lemma protocol_error_carries_code_witness :
  protocol_error 500 = ProtocolError "protocol error [500]" /\ 500%Z = 500%Z.
Proof.
  split; [reflexivity|].
  apply (protocol_error_carries_code (s1 := 500) (s2 := 500)). reflexivity.
Defined.

Lemma decode_response_tolerant_witness :
  _decode_response decode_ascii binary_client
                   (bytes_of "key" ++ TAB :: (bytes_of "a" ++ TAB :: bytes_of "b")
                      ++ NL :: bytes_of "broken")
                   tsv_raw
  = Ok [(PyBytes (bytes_of "key"), bytes_of "a" ++ TAB :: bytes_of "b")].
Proof.
  apply (decode_response_tolerant decode_ascii binary_client tsv_raw
                                  (bytes_of "key")
                                  (bytes_of "a" ++ TAB :: bytes_of "b")
                                  (bytes_of "broken")).
  - reflexivity.
  - reflexivity.
  - cbn. intuition discriminate.
  - cbn. intuition discriminate.
  - cbn. intuition discriminate.
  - cbn. intuition discriminate.
  - cbn. intuition discriminate.
Defined.
